(** * Armor-IQ banking ledger: the account-transaction core and its two front-ends

    A shallow embedding of [models.py], [crud.py], [schemas.py], the HTTP
    handlers of [main.py] and the tool dispatcher of [mcp_server.py].

    Modelling choices, all of them about what lies outside the five files:

    - Numbers.  Balances and amounts are Python floats.  The code touches them
      only through [+], [-], [<], [<=] and the literal [0], so the embedding is
      parametric in a carrier [F] with exactly these operations and [==]
      (class [Number]).  Two instances are given: IEEE binary64 (Rocq's primitive
      floats, the carrier the program runs on) and [Z] (exact arithmetic).  A
      theorem that needs laws of arithmetic or of the order says so through
      the classes [ExactArith] and [TotalOrder]; every other theorem holds
      at binary64 as it stands.
    - Text.  A Python [str] is a list of Unicode code points ([str]);
      [strip] removes the code points for which [str.isspace] holds.
    - Store.  The SQLAlchemy session is a record holding the two tables as
      lists of rows in insertion order, the log of the row writes committed so
      far, and the wall clock as an arbitrary sequence of readings.  Primary
      keys are handed out as one more than the largest key of the table.  The
      store returns a float as it was written and compares text code point
      by code point. *)

From Stdlib Require Import ZArith NArith List Bool Lia String Ascii.
From Stdlib Require Import Permutation Sorted.
From Stdlib Require Import Floats.PrimFloat.
Import ListNotations.

Local Open Scope Z_scope.

(** ** Numbers *)

(** The operations the program applies to a balance or an amount.  Python's
    [a > 0] is [flt fzero a] and [a >= 0] is [fle fzero a]; [feq] is [==],
    by which the ORM tells whether an attribute that was assigned has
    changed. *)
Class Number (F : Type) := {
  fzero : F;
  fadd : F -> F -> F;
  fsub : F -> F -> F;
  flt : F -> F -> bool;
  fle : F -> F -> bool;
  feq : F -> F -> bool
}.

(** The laws of arithmetic without rounding.  Binary64 has none of them in
    general: every sum and difference is rounded. *)
Class ExactArith (F : Type) {num : Number F} : Prop := {
  fadd_comm : forall x y : F, fadd x y = fadd y x;
  fadd_assoc : forall x y z : F, fadd x (fadd y z) = fadd (fadd x y) z;
  fadd_zero_l : forall x : F, fadd fzero x = x;
  fadd_fsub : forall x y : F, fsub (fadd x y) y = x;
  fsub_fadd : forall x y : F, fadd (fsub x y) y = x
}.

(** The laws of a total order.  Binary64 has them away from NaN and from
    the pair of zeros [0.0], [-0.0], which compare equal. *)
Class TotalOrder (F : Type) {num : Number F} : Prop := {
  flt_irrefl : forall x : F, flt x x = false;
  flt_trichotomy : forall x y : F, flt x y = false -> flt y x = false -> x = y;
  fle_flt : forall x y : F, fle x y = negb (flt y x)
}.

(** Python's float: IEEE 754 binary64, round to nearest even. *)
#[export] Instance binary64 : Number float := {
  fzero := PrimFloat.zero;
  fadd := PrimFloat.add;
  fsub := PrimFloat.sub;
  flt := PrimFloat.ltb;
  fle := PrimFloat.leb;
  feq := PrimFloat.eqb
}.

(** Exact amounts (a whole number of minor units). *)
#[export] Instance exact_Z : Number Z := {
  fzero := 0;
  fadd := Z.add;
  fsub := Z.sub;
  flt := Z.ltb;
  fle := Z.leb;
  feq := Z.eqb
}.

(** ** Text *)

(** A Python [str]: its code points. *)
Definition str := list N.

(** A literal of the source (ASCII) as a [str]. *)
Definition lit (s : string) : str := map N_of_ascii (list_ascii_of_string s).

Definition str_eqb (s t : str) : bool :=
  if list_eq_dec N.eq_dec s t then true else false.

(** [str.isspace] on one code point: CPython's [_PyUnicode_IsWhitespace]. *)
Definition isspace (c : N) : bool :=
  (((9 <=? c) && (c <=? 13)) || ((28 <=? c) && (c <=? 32))
   || (c =? 133) || (c =? 160) || (c =? 5760)
   || ((8192 <=? c) && (c <=? 8202))
   || (c =? 8232) || (c =? 8233) || (c =? 8239) || (c =? 8287)
   || (c =? 12288))%N.

Fixpoint lstrip (s : str) : str :=
  match s with
  | c :: s' => if isspace c then lstrip s' else s
  | [] => []
  end.

Definition rstrip (s : str) : str := rev (lstrip (rev s)).

(** [str.strip()] with no argument. *)
Definition strip (s : str) : str := rstrip (lstrip s).

(** ** models.py *)

Module models.

Inductive TransactionType := DEPOSIT | WITHDRAWAL.

Definition TransactionType_eqb (a b : TransactionType) : bool :=
  match a, b with
  | DEPOSIT, DEPOSIT | WITHDRAWAL, WITHDRAWAL => true
  | _, _ => false
  end.

(** A reading of [datetime.utcnow], in microseconds. *)
Definition datetime := Z.

Section Models.
Context {F : Type}.

(** A row of [accounts].  [owner_name] is [nullable=False, index=True]: the
    column carries no uniqueness constraint. *)
Record Account := {
  id : Z;
  owner_name : str;
  balance : F;
  created_at : datetime
}.

(** A row of [transactions] ([tx_id] is the column [id]). *)
Record Transaction := {
  tx_id : Z;
  account_id : Z;
  type : TransactionType;
  amount : F;
  timestamp : datetime
}.

(** A row write sent to the store by a commit. *)
Inductive Statement :=
| INSERT_account (pk : Z)
| UPDATE_account (pk : Z)
| INSERT_transaction (pk : Z).

(** The session over the store. *)
Record Session := {
  accounts : list Account;
  transactions : list Transaction;
  committed : list Statement;
  utcnow : nat -> datetime;
  readings : nat
}.

End Models.

Arguments Account F : clear implicits.
Arguments Transaction F : clear implicits.
Arguments Session F : clear implicits.

End models.
Import models.

(** ** crud.py *)

Module crud.
Section Crud.
Context {F : Type} {num : Number F}.

(** The key of the next row of a table whose keys are [keys]. *)
Definition next_id (keys : list Z) : Z := 1 + fold_right Z.max 0 keys.

Definition set_balance (a : Account F) (new_balance : F) : Account F :=
  {| id := id a; owner_name := owner_name a; balance := new_balance;
     created_at := created_at a |}.

Definition get_account_by_id (db : Session F) (account_id : Z)
  : option (Account F) :=
  find (fun a => id a =? account_id) (accounts db).

Definition get_account_by_owner_name (db : Session F) (name : str)
  : option (Account F) :=
  find (fun a => str_eqb (owner_name a) name) (accounts db).

(** [db.add(transaction); db.commit(); db.refresh(transaction)]. *)
Definition create_transaction (db : Session F) (account_id : Z)
  (transaction_type : TransactionType) (amount : F)
  : Session F * Transaction F :=
  let transaction :=
    {| tx_id := next_id (map tx_id (transactions db));
       account_id := account_id;
       type := transaction_type;
       amount := amount;
       timestamp := utcnow db (readings db) |} in
  ({| accounts := accounts db;
      transactions := transactions db ++ [transaction];
      committed := committed db ++ [INSERT_transaction (tx_id transaction)];
      utcnow := utcnow db;
      readings := S (readings db) |},
   transaction).

Definition create_account (db : Session F) (name : str) (initial_balance : F)
  : Session F * Account F :=
  let account :=
    {| id := next_id (map id (accounts db));
       owner_name := name;
       balance := initial_balance;
       created_at := utcnow db (readings db) |} in
  let db1 :=
    {| accounts := accounts db ++ [account];
       transactions := transactions db;
       committed := committed db ++ [INSERT_account (id account)];
       utcnow := utcnow db;
       readings := S (readings db) |} in
  if flt fzero initial_balance
  then (fst (create_transaction db1 (id account) DEPOSIT initial_balance),
        account)
  else (db1, account).

(** [account.balance = new_balance; db.commit(); db.refresh(account)]: the
    row of [account] gets the new balance, and the object read back is that
    row.  The commit sends an UPDATE only when the attribute has changed,
    that is when the value assigned does not compare equal ([==]) to the
    one the object was loaded with. *)
Definition update_account_balance (db : Session F) (account : Account F)
  (new_balance : F) : Session F * Account F :=
  ({| accounts :=
        map (fun row => if id row =? id account
                        then set_balance row new_balance else row)
            (accounts db);
      transactions := transactions db;
      committed :=
        committed db
        ++ (if feq (balance account) new_balance
            then [] else [UPDATE_account (id account)]);
      utcnow := utcnow db;
      readings := readings db |},
   set_balance account new_balance).

(** [ORDER BY timestamp DESC]: rows with equal timestamps come out latest
    insert first. *)
Fixpoint insert_desc (t : Transaction F) (l : list (Transaction F))
  : list (Transaction F) :=
  match l with
  | [] => [t]
  | u :: l' =>
      if timestamp u <? timestamp t then t :: l else u :: insert_desc t l'
  end.

Definition order_by_timestamp_desc (l : list (Transaction F))
  : list (Transaction F) :=
  fold_right insert_desc [] l.

(** [.offset(n)] and [.limit(n)].  A negative [n] is read as SQLite reads it
    (offset 0, no limit); the theorems below use them at [0 <= n] only. *)
Definition sql_offset {A : Type} (n : Z) (rows : list A) : list A :=
  skipn (Z.to_nat n) rows.

Definition sql_limit {A : Type} (n : Z) (rows : list A) : list A :=
  if n <? 0 then rows else firstn (Z.to_nat n) rows.

Definition by_account (account_id0 : Z) (rows : list (Transaction F))
  : list (Transaction F) :=
  filter (fun t => account_id t =? account_id0) rows.

Definition get_transactions_by_account (db : Session F) (account_id : Z)
  (limit offset : Z) : list (Transaction F) :=
  sql_limit limit
    (sql_offset offset
       (order_by_timestamp_desc (by_account account_id (transactions db)))).

Definition get_transaction_count_by_account (db : Session F) (account_id : Z)
  : nat :=
  List.length (by_account account_id (transactions db)).

Definition deposit (db : Session F) (account : Account F) (amount : F)
  : Session F * Account F :=
  let new_balance := fadd (balance account) amount in
  let '(db1, account1) := update_account_balance db account new_balance in
  let '(db2, _) := create_transaction db1 (id account1) DEPOSIT amount in
  (db2, account1).

(** [None] is the insufficient-funds result. *)
Definition withdraw (db : Session F) (account : Account F) (amount : F)
  : Session F * option (Account F) :=
  if flt (balance account) amount then (db, None)
  else
    let new_balance := fsub (balance account) amount in
    let '(db1, account1) := update_account_balance db account new_balance in
    let '(db2, _) := create_transaction db1 (id account1) WITHDRAWAL amount in
    (db2, Some account1).

End Crud.
End crud.

(** ** schemas.py *)

Module schemas.
Section Schemas.
Context {F : Type} {num : Number F}.

(** A validated [AccountCreate]. *)
Record AccountCreate := {
  data_owner_name : str;
  data_initial_balance : F
}.

(** The [field_validator] of [owner_name]; [None] is the [ValueError]. *)
Definition validate_owner_name (v : str) : option str :=
  let v := strip v in
  match v with
  | [] => None
  | _ :: _ => Some v
  end.

(** Validation of a request body into [AccountCreate]; [None] is the
    validation error.  [owner_name] is checked against [min_length=1] and
    [max_length=255] as sent, then handed to the field validator, whose
    result becomes the field.  [initial_balance] is checked against [ge=0]
    when sent and is the default [0.0] otherwise. *)
Definition AccountCreate_validate (owner_name : str)
  (initial_balance : option F) : option AccountCreate :=
  if ((1 <=? List.length owner_name) && (List.length owner_name <=? 255))%nat
  then
    match validate_owner_name owner_name with
    | None => None
    | Some v =>
        match initial_balance with
        | None =>
            Some {| data_owner_name := v; data_initial_balance := fzero |}
        | Some b =>
            if fle fzero b
            then Some {| data_owner_name := v; data_initial_balance := b |}
            else None
        end
    end
  else None.

(** [DepositRequest] and [WithdrawRequest]: [amount] with [gt=0]. *)
Definition DepositRequest_validate (amount : F) : option F :=
  if flt fzero amount then Some amount else None.

Definition WithdrawRequest_validate (amount : F) : option F :=
  if flt fzero amount then Some amount else None.

End Schemas.
Arguments AccountCreate F : clear implicits.
End schemas.

(** ** main.py: the HTTP handlers

    A handler is modelled from the point where [verify_api_key] has accepted
    the request; logging is left out. *)

Module main.
Section Main.
Context {F : Type} {num : Number F}.

Inductive HTTPResponse :=
| HTTP_201_CREATED (account : Account F)
| HTTP_200_Message (message : string) (account_id : Z) (new_balance : F)
| HTTP_200_Balance (account_id : Z) (owner_name : str) (balance : F)
| HTTP_200_TransactionList (account_id : Z)
    (transactions : list (Transaction F)) (total_count : nat)
| HTTP_400_BAD_REQUEST (detail : string)
| HTTP_404_NOT_FOUND (detail : string)
| HTTP_409_CONFLICT (detail : string)
| HTTP_422_UNPROCESSABLE
| HTTP_500_INTERNAL.

(** [Query(default=50, ge=1, le=100)]. *)
Definition Query_limit (limit : option Z) : option Z :=
  match limit with
  | None => Some 50
  | Some n => if (1 <=? n) && (n <=? 100) then Some n else None
  end.

(** [Query(default=0, ge=0)]. *)
Definition Query_offset (offset : option Z) : option Z :=
  match offset with
  | None => Some 0
  | Some n => if 0 <=? n then Some n else None
  end.

Definition create_account (db : Session F) (owner_name : str)
  (initial_balance : option F) : Session F * HTTPResponse :=
  match schemas.AccountCreate_validate owner_name initial_balance with
  | None => (db, HTTP_422_UNPROCESSABLE)
  | Some account_data =>
      match crud.get_account_by_owner_name db
              (schemas.data_owner_name account_data) with
      | Some _ =>
          (db, HTTP_409_CONFLICT "Account with this owner name already exists")
      | None =>
          let '(db', account) :=
            crud.create_account db (schemas.data_owner_name account_data)
              (schemas.data_initial_balance account_data) in
          (db', HTTP_201_CREATED account)
      end
  end.

Definition deposit (db : Session F) (account_id : Z) (amount : F)
  : Session F * HTTPResponse :=
  match schemas.DepositRequest_validate amount with
  | None => (db, HTTP_422_UNPROCESSABLE)
  | Some amount =>
      match crud.get_account_by_id db account_id with
      | None => (db, HTTP_404_NOT_FOUND "Account not found")
      | Some account =>
          let '(db', account) := crud.deposit db account amount in
          (db', HTTP_200_Message "Deposit successful" (id account)
                  (balance account))
      end
  end.

Definition withdraw (db : Session F) (account_id : Z) (amount : F)
  : Session F * HTTPResponse :=
  match schemas.WithdrawRequest_validate amount with
  | None => (db, HTTP_422_UNPROCESSABLE)
  | Some amount =>
      match crud.get_account_by_id db account_id with
      | None => (db, HTTP_404_NOT_FOUND "Account not found")
      | Some account =>
          if flt (balance account) amount
          then (db, HTTP_400_BAD_REQUEST "Insufficient funds")
          else
            match crud.withdraw db account amount with
            | (db', Some account) =>
                (db', HTTP_200_Message "Withdrawal successful" (id account)
                        (balance account))
            | (db', None) => (db', HTTP_500_INTERNAL)
            end
      end
  end.

Definition get_balance (db : Session F) (account_id : Z)
  : Session F * HTTPResponse :=
  match crud.get_account_by_id db account_id with
  | None => (db, HTTP_404_NOT_FOUND "Account not found")
  | Some account =>
      (db, HTTP_200_Balance (id account) (owner_name account)
             (balance account))
  end.

Definition get_transactions (db : Session F) (account_id : Z)
  (limit offset : option Z) : Session F * HTTPResponse :=
  match Query_limit limit, Query_offset offset with
  | Some limit, Some offset =>
      match crud.get_account_by_id db account_id with
      | None => (db, HTTP_404_NOT_FOUND "Account not found")
      | Some _ =>
          (db, HTTP_200_TransactionList account_id
                 (crud.get_transactions_by_account db account_id limit offset)
                 (crud.get_transaction_count_by_account db account_id))
      end
  | _, _ => (db, HTTP_422_UNPROCESSABLE)
  end.

End Main.
Arguments HTTPResponse F : clear implicits.
End main.

(** ** mcp_server.py: the tool dispatcher *)

Module mcp_server.
Section McpServer.
Context {F : Type} {num : Number F}.

(** The [arguments] dictionary, read at the keys the tools use; [None] is an
    absent key. *)
Record ToolArguments := {
  arg_owner_name : option str;
  arg_initial_balance : option F;
  arg_account_id : option Z;
  arg_amount : option F;
  arg_limit : option Z
}.

(** The text returned by a tool: an error line, or the fields of the JSON
    object written on success. *)
Inductive ToolResult :=
| Error (text : string)
| Unknown_tool (name : string)
| Account_created (account : Account F)
| Message (message : string) (account_id : Z) (new_balance : F)
| Balance (account_id : Z) (owner_name : str) (balance : F)
| TransactionList (account_id : Z) (total_transactions : nat)
    (transactions : list (Transaction F))
| AccountList (total_accounts : nat) (accounts : list (Account F))
| Raised.

(** [crud.get_account_by_id(db, arguments.get("account_id"))]: an absent
    key compares the column with NULL and finds no row. *)
Definition account_of (db : Session F) (account_id : option Z)
  : option (Account F) :=
  match account_id with
  | None => None
  | Some i => crud.get_account_by_id db i
  end.

Definition call_tool (db : Session F) (name : string)
  (arguments : ToolArguments) : Session F * ToolResult :=
  if (name =? "create_account")%string then
    let owner_name :=
      strip (match arg_owner_name arguments with Some s => s | None => [] end) in
    let initial_balance :=
      match arg_initial_balance arguments with Some b => b | None => fzero end in
    match owner_name with
    | [] => (db, Error "Error: Owner name cannot be empty")
    | _ :: _ =>
        if flt initial_balance fzero
        then (db, Error "Error: Initial balance cannot be negative")
        else
          match crud.get_account_by_owner_name db owner_name with
          | Some _ =>
              (db, Error "Error: Account with this owner name already exists")
          | None =>
              let '(db', account) :=
                crud.create_account db owner_name initial_balance in
              (db', Account_created account)
          end
    end
  else if (name =? "deposit")%string then
    match arg_amount arguments with
    | None => (db, Error "Error: Amount must be a positive number")
    | Some amount =>
        if fle amount fzero
        then (db, Error "Error: Amount must be a positive number")
        else
          match account_of db (arg_account_id arguments) with
          | None => (db, Error "Error: Account not found")
          | Some account =>
              let '(db', account) := crud.deposit db account amount in
              (db', Message "Deposit successful" (id account)
                      (balance account))
          end
    end
  else if (name =? "withdraw")%string then
    match arg_amount arguments with
    | None => (db, Error "Error: Amount must be a positive number")
    | Some amount =>
        if fle amount fzero
        then (db, Error "Error: Amount must be a positive number")
        else
          match account_of db (arg_account_id arguments) with
          | None => (db, Error "Error: Account not found")
          | Some account =>
              if flt (balance account) amount
              then (db, Error "Error: Insufficient funds")
              else
                match crud.withdraw db account amount with
                | (db', Some account) =>
                    (db', Message "Withdrawal successful" (id account)
                            (balance account))
                | (db', None) => (db', Raised)
                end
          end
    end
  else if (name =? "get_balance")%string then
    match account_of db (arg_account_id arguments) with
    | None => (db, Error "Error: Account not found")
    | Some account =>
        (db, Balance (id account) (owner_name account) (balance account))
    end
  else if (name =? "get_transactions")%string then
    let limit :=
      match arg_limit arguments with Some n => n | None => 50 end in
    match arg_account_id arguments with
    | None => (db, Error "Error: Account not found")
    | Some account_id =>
        match crud.get_account_by_id db account_id with
        | None => (db, Error "Error: Account not found")
        | Some _ =>
            (db, TransactionList account_id
                   (crud.get_transaction_count_by_account db account_id)
                   (crud.get_transactions_by_account db account_id limit 0))
        end
    end
  else if (name =? "list_accounts")%string then
    (db, AccountList (List.length (accounts db)) (accounts db))
  else (db, Unknown_tool name).

End McpServer.
Arguments ToolArguments F : clear implicits.
Arguments ToolResult F : clear implicits.
End mcp_server.

(** ** Requests, sessions reached by serving them *)

Section Service.
Context {F : Type} {num : Number F}.

(** A request to one of the two front-ends. *)
Inductive Request :=
| POST_accounts (owner_name : str) (initial_balance : option F)
| POST_deposit (account_id : Z) (amount : F)
| POST_withdraw (account_id : Z) (amount : F)
| GET_balance (account_id : Z)
| GET_transactions (account_id : Z) (limit offset : option Z)
| Tool (name : string) (arguments : mcp_server.ToolArguments F).

(** The session after the request is served. *)
Definition serve (db : Session F) (r : Request) : Session F :=
  match r with
  | POST_accounts n b => fst (main.create_account db n b)
  | POST_deposit i a => fst (main.deposit db i a)
  | POST_withdraw i a => fst (main.withdraw db i a)
  | GET_balance i => fst (main.get_balance db i)
  | GET_transactions i l o => fst (main.get_transactions db i l o)
  | Tool n args => fst (mcp_server.call_tool db n args)
  end.

Definition run (db : Session F) (rs : list Request) : Session F :=
  fold_left serve rs db.

(** The store after [Base.metadata.create_all]: two empty tables. *)
Definition empty (clock : nat -> datetime) : Session F :=
  {| accounts := []; transactions := []; committed := [];
     utcnow := clock; readings := 0 |}.

(** The sum of the amounts of the rows of one type, in ledger order. *)
Definition total (ty : TransactionType) (rows : list (Transaction F)) : F :=
  fold_left fadd
    (map amount (filter (fun t => TransactionType_eqb (type t) ty) rows))
    fzero.

(** Deposits minus withdrawals over the rows of one account. *)
Definition ledger_balance (db : Session F) (account_id : Z) : F :=
  let rows := crud.by_account account_id (transactions db) in
  fsub (total DEPOSIT rows) (total WITHDRAWAL rows).

(** The balance as the specification's invariant words it: the initial
    balance plus the deposits minus the withdrawals. *)
Definition spec_balance (initial_balance : F) (db : Session F)
  (account_id : Z) : F :=
  let rows := crud.by_account account_id (transactions db) in
  fsub (fadd initial_balance (total DEPOSIT rows)) (total WITHDRAWAL rows).

End Service.
Arguments Request F : clear implicits.

Definition is_account_write (s : Statement) : bool :=
  match s with
  | INSERT_account _ | UPDATE_account _ => true
  | INSERT_transaction _ => false
  end.

Definition is_transaction_insert (s : Statement) : bool :=
  match s with
  | INSERT_transaction _ => true
  | _ => false
  end.

(** The writes issued between two states of the log. *)
Definition issued {F : Type} (before after : Session F) : list Statement :=
  skipn (List.length (committed before)) (committed after).

Definition account_writes (l : list Statement) : nat :=
  List.length (filter is_account_write l).

Definition transaction_inserts (l : list Statement) : nat :=
  List.length (filter is_transaction_insert l).

(** A code point sequence has no white space at either end. *)
Definition trimmed (s : str) : Prop :=
  match s with
  | [] => True
  | c :: _ => isspace c = false /\ isspace (last s c) = false
  end.

(** The tool arguments of a [create_account] call. *)
Definition create_args {F : Type} (owner_name : str)
  (initial_balance : option F) : mcp_server.ToolArguments F :=
  {| mcp_server.arg_owner_name := Some owner_name;
     mcp_server.arg_initial_balance := initial_balance;
     mcp_server.arg_account_id := None;
     mcp_server.arg_amount := None;
     mcp_server.arg_limit := None |}.

(** The tool arguments of a [deposit] or [withdraw] call. *)
Definition amount_args {F : Type} (account_id : Z) (amount : F)
  : mcp_server.ToolArguments F :=
  {| mcp_server.arg_owner_name := None;
     mcp_server.arg_initial_balance := None;
     mcp_server.arg_account_id := Some account_id;
     mcp_server.arg_amount := Some amount;
     mcp_server.arg_limit := None |}.

(** The tool arguments of a [get_transactions] call. *)
Definition page_args {F : Type} (account_id : Z) (limit : option Z)
  : mcp_server.ToolArguments F :=
  {| mcp_server.arg_owner_name := None;
     mcp_server.arg_initial_balance := None;
     mcp_server.arg_account_id := Some account_id;
     mcp_server.arg_amount := None;
     mcp_server.arg_limit := limit |}.

(** A clock that advances by one microsecond per reading. *)
Definition ticking : nat -> datetime := Z.of_nat.

(** [newer_first t u]: [t] is at least as recent as [u]. *)
Definition newer_first {F : Type} (t u : Transaction F) : Prop :=
  timestamp u <= timestamp t.

(** Every code point of the sequence is white space. *)
Definition blank (s : str) : Prop := Forall (fun c => isspace c = true) s.

(** ** What a request can do to the session *)

Section Effects.
Context {F : Type} {num : Number F}.

(** An initial balance that a front-end lets through: the default, or a
    value that passed [ge=0] (HTTP), or one that did not satisfy
    [initial_balance < 0] (tool). *)
Definition accepted_initial (b : F) : Prop :=
  b = fzero \/ fle fzero b = true \/ flt b fzero = false.

(** The session after a request is the session before it, or the result of
    one core mutation called as the front-ends call it: [create_account]
    with a stripped, non-empty owner name that no account bears;
    [deposit] on an account read from the session; [withdraw] on such an
    account whose balance is not below the amount. *)
Inductive effect (db : Session F) : Session F -> Prop :=
| effect_none : effect db db
| effect_create (name : str) (b : F) :
    name <> [] -> trimmed name ->
    crud.get_account_by_owner_name db name = None ->
    accepted_initial b ->
    effect db (fst (crud.create_account db name b))
| effect_deposit (account : Account F) (amt : F) :
    crud.get_account_by_id db (id account) = Some account ->
    effect db (fst (crud.deposit db account amt))
| effect_withdraw (account : Account F) (amt : F) :
    crud.get_account_by_id db (id account) = Some account ->
    flt (balance account) amt = false ->
    effect db (fst (crud.withdraw db account amt)).

(** Primary keys are distinct and every transaction refers to an account. *)
Definition keys_consistent (db : Session F) : Prop :=
  NoDup (map id (accounts db))
  /\ Forall (fun t => In (account_id t) (map id (accounts db)))
            (transactions db).

(** Every balance is the deposits minus the withdrawals recorded for the
    account. *)
Definition balanced (db : Session F) : Prop :=
  forall a, In a (accounts db) -> balance a = ledger_balance db (id a).

End Effects.

(** ** Outcomes of the two front-ends, side by side *)

Section Outcomes.
Context {F : Type}.

(** The tool result says what the HTTP response says: the same record on
    success, and on failure the error text that stands for the status. *)
Definition same_outcome (h : main.HTTPResponse F)
  (t : mcp_server.ToolResult F) : Prop :=
  match h, t with
  | main.HTTP_201_CREATED a, mcp_server.Account_created a' => a = a'
  | main.HTTP_200_Message m i b, mcp_server.Message m' i' b' =>
      m = m' /\ i = i' /\ b = b'
  | main.HTTP_422_UNPROCESSABLE, mcp_server.Error e =>
      e = "Error: Owner name cannot be empty"%string
      \/ e = "Error: Initial balance cannot be negative"%string
      \/ e = "Error: Amount must be a positive number"%string
  | main.HTTP_409_CONFLICT _, mcp_server.Error e =>
      e = "Error: Account with this owner name already exists"%string
  | main.HTTP_404_NOT_FOUND _, mcp_server.Error e =>
      e = "Error: Account not found"%string
  | main.HTTP_400_BAD_REQUEST _, mcp_server.Error e =>
      e = "Error: Insufficient funds"%string
  | _, _ => False
  end.

End Outcomes.

(** ** Sample sessions *)

(** The scenario of the specification: Alice opens with 100, deposits 50,
    is refused 200 and withdraws 150 (the refused request through the tool
    front-end, the others over HTTP). *)
Definition alice_requests {F : Type} (n100 n50 n200 n150 : F)
  : list (Request F) :=
  [POST_accounts (lit "Alice") (Some n100);
   POST_deposit 1 n50;
   Tool "withdraw" (amount_args 1 n200);
   POST_withdraw 1 n150].

Definition alice_exact : Session Z :=
  run (empty ticking) (alice_requests 100 50 200 150).

(** Alice has just opened her account with 100, in binary64. *)
Definition alice_opened : Session float :=
  run (empty ticking) [POST_accounts (lit "Alice") (Some 100%float)].

(** Eve opens with 1e16 and withdraws 1 twice, in binary64. *)
Definition eve_requests : list (Request float) :=
  [POST_accounts (lit "Eve") (Some 1e16%float);
   POST_withdraw 1 1%float;
   POST_withdraw 1 1%float].

(** Alice's row in [alice_opened] and in [alice_exact]. *)
Definition alice_account : Account float :=
  {| id := 1; owner_name := lit "Alice"; balance := 100%float;
     created_at := 0 |}.

Definition alice_settled : Account Z :=
  {| id := 1; owner_name := lit "Alice"; balance := 0; created_at := 0 |}.

(** Two binary64 values that [==] tells apart are different. *)
Ltac float_neq :=
  let H := fresh in
  intro H;
  match type of H with
  | ?x = ?y => apply (f_equal (fun v => PrimFloat.eqb v x)) in H
  end;
  vm_compute in H; discriminate H.

(** ** main.py, mcp_server.py: [sanitize_input] *)

(** [s.replace(old, new)] for a pattern of one code point. *)
Definition replace_char (old : N) (new : str) (s : str) : str :=
  flat_map (fun c => if (c =? old)%N then new else [c]) s.

(** [html.escape(s)] with [quote=True]: five replacements in a row, the
    ampersand first. *)
Definition html_escape (s : str) : str :=
  replace_char 39 (lit "&#x27;")
    (replace_char 34 (lit "&quot;")
       (replace_char 62 (lit "&gt;")
          (replace_char 60 (lit "&lt;")
             (replace_char 38 (lit "&amp;") s)))).

(** [sanitize_input(value)] on a string or [None]. *)
Definition sanitize_input (value : option str) : str :=
  match value with
  | None => []
  | Some s => html_escape s
  end.

(** What [html.escape] writes for one code point. *)
Definition escape_char (c : N) : str :=
  if (c =? 38)%N then lit "&amp;"
  else if (c =? 60)%N then lit "&lt;"
  else if (c =? 62)%N then lit "&gt;"
  else if (c =? 34)%N then lit "&quot;"
  else if (c =? 39)%N then lit "&#x27;"
  else [c].

(** The code points [<], [>], double quote and single quote. *)
Definition markup (c : N) : bool :=
  ((c =? 60) || (c =? 62) || (c =? 34) || (c =? 39))%N.

(** ** main.py: [verify_api_key] *)

(** [str.isascii]. *)
Definition isascii (s : str) : bool := forallb (fun c => (c <? 128)%N) s.

(** [secrets.compare_digest] on two strings: [None] is the [TypeError]
    raised when one of them is not ASCII. *)
Definition compare_digest (a b : str) : option bool :=
  if isascii a && isascii b then Some (str_eqb a b) else None.

Inductive Verification :=
| HTTP_401_UNAUTHORIZED (detail : string)
| HTTP_403_FORBIDDEN (detail : string)
| Raised_TypeError
| Verified (api_key : str).

(** [verify_api_key] for the configured [API_KEY] and the [X-API-Key]
    header of the request ([None] when absent). *)
Definition verify_api_key (API_KEY : str) (api_key : option str)
  : Verification :=
  match api_key with
  | None => HTTP_401_UNAUTHORIZED "API key is missing"
  | Some k =>
      match compare_digest k API_KEY with
      | None => Raised_TypeError
      | Some false => HTTP_403_FORBIDDEN "Invalid API key"
      | Some true => Verified k
      end
  end.

(** ** mcp_server.py: [list_tools] *)

Module mcp_types.

(** One entry of [properties] in an input schema. *)
Record Property := {
  prop_key : string;
  prop_type : string;
  prop_description : string;
  prop_default : option Z
}.

Record Tool := {
  tool_name : string;
  tool_description : string;
  tool_properties : list Property;
  tool_required : list string
}.

End mcp_types.

Definition list_tools : list mcp_types.Tool :=
  [ {| mcp_types.tool_name := "create_account";
       mcp_types.tool_description :=
         "Create a new bank account with an owner name and optional initial balance";
       mcp_types.tool_properties :=
         [ {| mcp_types.prop_key := "owner_name"; mcp_types.prop_type := "string";
              mcp_types.prop_description := "The name of the account owner";
              mcp_types.prop_default := None |};
           {| mcp_types.prop_key := "initial_balance"; mcp_types.prop_type := "number";
              mcp_types.prop_description :=
                "Initial balance for the account (default: 0)";
              mcp_types.prop_default := Some 0 |} ];
       mcp_types.tool_required := ["owner_name"] |};
    {| mcp_types.tool_name := "deposit";
       mcp_types.tool_description := "Deposit funds into an existing bank account";
       mcp_types.tool_properties :=
         [ {| mcp_types.prop_key := "account_id"; mcp_types.prop_type := "integer";
              mcp_types.prop_description := "The ID of the account to deposit into";
              mcp_types.prop_default := None |};
           {| mcp_types.prop_key := "amount"; mcp_types.prop_type := "number";
              mcp_types.prop_description := "The amount to deposit (must be positive)";
              mcp_types.prop_default := None |} ];
       mcp_types.tool_required := ["account_id"; "amount"] |};
    {| mcp_types.tool_name := "withdraw";
       mcp_types.tool_description := "Withdraw funds from an existing bank account";
       mcp_types.tool_properties :=
         [ {| mcp_types.prop_key := "account_id"; mcp_types.prop_type := "integer";
              mcp_types.prop_description := "The ID of the account to withdraw from";
              mcp_types.prop_default := None |};
           {| mcp_types.prop_key := "amount"; mcp_types.prop_type := "number";
              mcp_types.prop_description := "The amount to withdraw (must be positive)";
              mcp_types.prop_default := None |} ];
       mcp_types.tool_required := ["account_id"; "amount"] |};
    {| mcp_types.tool_name := "get_balance";
       mcp_types.tool_description := "Get the current balance of a bank account";
       mcp_types.tool_properties :=
         [ {| mcp_types.prop_key := "account_id"; mcp_types.prop_type := "integer";
              mcp_types.prop_description := "The ID of the account to check";
              mcp_types.prop_default := None |} ];
       mcp_types.tool_required := ["account_id"] |};
    {| mcp_types.tool_name := "get_transactions";
       mcp_types.tool_description := "Get the transaction history for a bank account";
       mcp_types.tool_properties :=
         [ {| mcp_types.prop_key := "account_id"; mcp_types.prop_type := "integer";
              mcp_types.prop_description := "The ID of the account";
              mcp_types.prop_default := None |};
           {| mcp_types.prop_key := "limit"; mcp_types.prop_type := "integer";
              mcp_types.prop_description :=
                "Maximum number of transactions to return (default: 50)";
              mcp_types.prop_default := Some 50 |} ];
       mcp_types.tool_required := ["account_id"] |};
    {| mcp_types.tool_name := "list_accounts";
       mcp_types.tool_description := "List all bank accounts in the system";
       mcp_types.tool_properties := [];
       mcp_types.tool_required := [] |} ]%string.

(** [key in arguments]. *)
Definition has_key {F : Type} (arguments : mcp_server.ToolArguments F)
  (key : string) : bool :=
  if (key =? "owner_name")%string then
    match mcp_server.arg_owner_name arguments with Some _ => true | None => false end
  else if (key =? "initial_balance")%string then
    match mcp_server.arg_initial_balance arguments with Some _ => true | None => false end
  else if (key =? "account_id")%string then
    match mcp_server.arg_account_id arguments with Some _ => true | None => false end
  else if (key =? "amount")%string then
    match mcp_server.arg_amount arguments with Some _ => true | None => false end
  else if (key =? "limit")%string then
    match mcp_server.arg_limit arguments with Some _ => true | None => false end
  else false.

(** The default the schema of tool [name] declares for [key]. *)
Definition schema_default (name key : string) : option Z :=
  match find (fun t => (mcp_types.tool_name t =? name)%string) list_tools with
  | None => None
  | Some t =>
      match find (fun p => (mcp_types.prop_key p =? key)%string) (mcp_types.tool_properties t) with
      | None => None
      | Some p => mcp_types.prop_default p
      end
  end.

(** ** Order and arithmetic together *)

(** The laws that tie the order to addition. *)
Class OrderedArith (F : Type) {num : Number F} : Prop := {
  flt_trans : forall x y z : F, flt x y = true -> flt y z = true -> flt x z = true;
  flt_fadd_mono : forall x y z : F,
    flt x y = true -> flt (fadd x z) (fadd y z) = true
}.

Section Checked.
Context {F : Type} {num : Number F}.

(** An amount that a front-end lets through: it passed [gt=0] (HTTP), or
    it did not satisfy [amount <= 0] (tool). *)
Definition accepted_amount (amt : F) : Prop :=
  flt fzero amt = true \/ fle amt fzero = false.

(** [effect], with what the front-ends have checked of the amount. *)
Inductive checked_effect (db : Session F) : Session F -> Prop :=
| checked_none : checked_effect db db
| checked_create (name : str) (b : F) :
    accepted_initial b ->
    checked_effect db (fst (crud.create_account db name b))
| checked_deposit (account : Account F) (amt : F) :
    crud.get_account_by_id db (id account) = Some account ->
    accepted_amount amt ->
    checked_effect db (fst (crud.deposit db account amt))
| checked_withdraw (account : Account F) (amt : F) :
    crud.get_account_by_id db (id account) = Some account ->
    accepted_amount amt ->
    flt (balance account) amt = false ->
    checked_effect db (fst (crud.withdraw db account amt)).

(** The columns of an account that no operation writes after the insert. *)
Definition identity_of (a : Account F) : Z * str * datetime :=
  (id a, owner_name a, created_at a).

End Checked.

(** Each reading of the clock is later than the one before. *)
Definition advancing (clock : nat -> datetime) : Prop :=
  forall i j : nat, (i < j)%nat -> clock i < clock j.

(** Bob opens with nothing, deposits 30 through the tool front-end and
    withdraws 10, in exact arithmetic. *)
Definition bob_requests : list (Request Z) :=
  [POST_accounts (lit "Bob") None;
   Tool "deposit" (amount_args 1 30);
   POST_withdraw 1 10].

Definition bob_exact : Session Z := run (empty ticking) bob_requests.

Definition bob_account : Account Z :=
  {| id := 1; owner_name := lit "Bob"; balance := 20; created_at := 0 |}.

(** The row that records Alice's opening deposit in [alice_exact]. *)
Definition alice_first_row : Transaction Z :=
  {| tx_id := 1; account_id := 1; type := DEPOSIT; amount := 100;
     timestamp := 1 |}.

(** The [deposit] entry of [list_tools]. *)
Definition deposit_tool : mcp_types.Tool :=
  nth 1 list_tools
    {| mcp_types.tool_name := ""; mcp_types.tool_description := "";
       mcp_types.tool_properties := []; mcp_types.tool_required := [] |}.

(** Eve has just opened her account with 1e16, in binary64. *)
Definition eve_opened : Session float :=
  run (empty ticking) [POST_accounts (lit "Eve") (Some 1e16%float)].

Definition eve_account : Account float :=
  {| id := 1; owner_name := lit "Eve"; balance := 1e16%float;
     created_at := 0 |}.

(** * Properties *)

(** ** Exact arithmetic at [Z] *)

Lemma Z_exact : ExactArith Z.
Proof.
  split; simpl; intros; lia.
Qed.

Lemma Z_order : TotalOrder Z.
Proof.
  split; simpl; intros.
  - apply Z.ltb_irrefl.
  - apply Z.ltb_ge in H, H0. lia.
  - rewrite Z.leb_antisym. reflexivity.
Qed.

(** ** The writes of the core *)

Section CrudFacts.
Context {F : Type} {num : Number F}.

Lemma find_updated_row (k : Z) (b : F) (l : list (Account F)) :
  find (fun a => id a =? k)
       (map (fun row => if id row =? k then crud.set_balance row b else row) l)
  = option_map (fun r => crud.set_balance r b) (find (fun a => id a =? k) l).
Proof.
  induction l as [| r l IH]; simpl; [reflexivity|].
  destruct (id r =? k) eqn:E; simpl; rewrite E; [reflexivity | exact IH].
Qed.

Lemma find_other_row (k j : Z) (b : F) (l : list (Account F)) :
  j <> k ->
  find (fun a => id a =? j)
       (map (fun row => if id row =? k then crud.set_balance row b else row) l)
  = find (fun a => id a =? j) l.
Proof.
  intros Hjk. induction l as [| r l IH]; simpl; [reflexivity|].
  destruct (id r =? k) eqn:E; simpl.
  - apply Z.eqb_eq in E. rewrite E.
    destruct (k =? j) eqn:E'; [apply Z.eqb_eq in E'; congruence | exact IH].
  - destruct (id r =? j); [reflexivity | exact IH].
Qed.

Lemma skipn_length_app {A : Type} (l w : list A) :
  skipn (List.length l) (l ++ w) = w.
Proof.
  induction l as [| x l IH]; simpl; [reflexivity | exact IH].
Qed.

(** C7. [crud.deposit] on an account of the session: the object returned is
    the account with balance [balance + amount]; that is the row the session
    now holds for its id; the transactions table has grown by exactly one
    row, a DEPOSIT of [amount] for this account. *)
Theorem deposit_adds_amount_and_records_it :
  forall (db : Session F) (account : Account F) (amt : F),
    crud.get_account_by_id db (id account) = Some account ->
    let db' := fst (crud.deposit db account amt) in
    let account' := snd (crud.deposit db account amt) in
    account' = crud.set_balance account (fadd (balance account) amt)
    /\ balance account' = fadd (balance account) amt
    /\ crud.get_account_by_id db' (id account) = Some account'
    /\ exists t,
         transactions db' = transactions db ++ [t]
         /\ account_id t = id account /\ type t = DEPOSIT /\ amount t = amt.
Proof.
  intros db account amt Hrow. cbv zeta.
  unfold crud.deposit. simpl.
  repeat split.
  - unfold crud.get_account_by_id. simpl.
    rewrite find_updated_row. unfold crud.get_account_by_id in Hrow.
    rewrite Hrow. reflexivity.
  - eexists. repeat split.
Qed.

(** C2. [crud.withdraw]: when [balance < amount] it returns [None], the
    session is left as it was (so the balance is unchanged and no transaction
    row is created); otherwise it returns the account with balance
    [balance - amount], the session holds that row for the account's id, and
    the transactions table has grown by exactly one row, a WITHDRAWAL of
    [amount] for this account. *)
Theorem withdraw_guarded_by_balance :
  forall (db : Session F) (account : Account F) (amt : F),
    crud.get_account_by_id db (id account) = Some account ->
    (flt (balance account) amt = true ->
       crud.withdraw db account amt = (db, None))
    /\ (flt (balance account) amt = false ->
        exists db' account' t,
          crud.withdraw db account amt = (db', Some account')
          /\ account' = crud.set_balance account (fsub (balance account) amt)
          /\ balance account' = fsub (balance account) amt
          /\ crud.get_account_by_id db' (id account) = Some account'
          /\ transactions db' = transactions db ++ [t]
          /\ account_id t = id account /\ type t = WITHDRAWAL
          /\ amount t = amt).
Proof.
  intros db account amt Hrow. unfold crud.withdraw. split; intros Hlt; rewrite Hlt.
  - reflexivity.
  - simpl. do 3 eexists. split; [reflexivity|]. repeat split.
    unfold crud.get_account_by_id in *. simpl.
    rewrite find_updated_row, Hrow. reflexivity.
Qed.

(** C6. [crud.create_account] appends the account row (owner name and
    balance as given, a fresh id) and then, exactly when
    [initial_balance > 0], one DEPOSIT row of [initial_balance] for it:
    the writes issued are the account insert followed by at most that one
    transaction insert.  With initial balance zero (binary64 [0.0] and
    [-0.0], or exact [0]) the transactions table is left as it was. *)
Theorem create_account_records_positive_initial_balance :
  forall (db : Session F) (name : str) (b : F),
    let db' := fst (crud.create_account db name b) in
    let account := snd (crud.create_account db name b) in
    (accounts db' = accounts db ++ [account]
     /\ owner_name account = name /\ balance account = b
     /\ id account = crud.next_id (map id (accounts db)))
    /\ (flt fzero b = true ->
        exists t,
          transactions db' = transactions db ++ [t]
          /\ account_id t = id account /\ type t = DEPOSIT /\ amount t = b
          /\ issued db db'
             = [INSERT_account (id account); INSERT_transaction (tx_id t)])
    /\ (flt fzero b = false ->
        transactions db' = transactions db
        /\ issued db db' = [INSERT_account (id account)])
    /\ (forall (db0 : Session float) (name0 : str),
          transactions (fst (crud.create_account db0 name0 0%float))
          = transactions db0
          /\ transactions (fst (crud.create_account db0 name0 (-0)%float))
             = transactions db0)
    /\ (forall (db0 : Session Z) (name0 : str),
          transactions (fst (crud.create_account db0 name0 0%Z))
          = transactions db0).
Proof.
  intros db name b. cbv zeta. unfold crud.create_account, issued.
  split; [| split; [| split; [| split]]].
  - destruct (flt fzero b); simpl; repeat split.
  - intros Hb. rewrite Hb. simpl. eexists. repeat split.
    rewrite <- app_assoc. apply skipn_length_app.
  - intros Hb. rewrite Hb. simpl. split; [reflexivity|].
    apply skipn_length_app.
  - intros db0 name0. split; reflexivity.
  - intros db0 name0. reflexivity.
Qed.

(** C9, as the code has it.  The writes of the three mutating operations.
    [create_account] issues one account write, the insert, followed by one
    transaction insert exactly when the initial balance is positive.
    [deposit] and a successful [withdraw] issue an account write, the
    update, exactly when the new balance does not compare equal to the one
    the account was loaded with, and none otherwise; then one transaction
    insert.  A refused [withdraw] issues nothing and leaves the session as
    it was.  So no operation issues more than one account write or more
    than one transaction insert.  Besides: the account's row reads back
    with the new balance and its other columns as they were, every other id
    reads as before, and the transactions table keeps its rows and gains
    the one row inserted. *)
Theorem mutations_issue_at_most_one_write_of_each_kind :
  forall (db : Session F),
    (forall (name : str) (b : F),
       let db' := fst (crud.create_account db name b) in
       let account := snd (crud.create_account db name b) in
       account_writes (issued db db') = 1%nat
       /\ transaction_inserts (issued db db')
          = (if flt fzero b then 1%nat else 0%nat)
       /\ committed db' = committed db ++ issued db db'
       /\ accounts db'
          = accounts db
            ++ [{| id := crud.next_id (map id (accounts db));
                   owner_name := name; balance := b;
                   created_at := utcnow db (readings db) |}]
       /\ exists new,
            transactions db' = transactions db ++ new
            /\ List.length new = transaction_inserts (issued db db')
            /\ issued db db'
               = INSERT_account (id account)
                 :: map (fun t => INSERT_transaction (tx_id t)) new)
    /\ (forall (account : Account F) (amt : F),
       let db' := fst (crud.deposit db account amt) in
       let new_balance := fadd (balance account) amt in
       account_writes (issued db db')
       = (if feq (balance account) new_balance then 0%nat else 1%nat)
       /\ transaction_inserts (issued db db') = 1%nat
       /\ committed db' = committed db ++ issued db db'
       /\ (forall row,
             crud.get_account_by_id db (id account) = Some row ->
             crud.get_account_by_id db' (id account)
             = Some {| id := id row; owner_name := owner_name row;
                       balance := new_balance;
                       created_at := created_at row |})
       /\ (forall j, j <> id account ->
           crud.get_account_by_id db' j = crud.get_account_by_id db j)
       /\ List.length (accounts db') = List.length (accounts db)
       /\ exists t,
            transactions db' = transactions db ++ [t]
            /\ account_id t = id account /\ type t = DEPOSIT
            /\ amount t = amt
            /\ issued db db'
               = (if feq (balance account) new_balance
                  then [] else [UPDATE_account (id account)])
                 ++ [INSERT_transaction (tx_id t)])
    /\ (forall (account : Account F) (amt : F),
       let db' := fst (crud.withdraw db account amt) in
       let new_balance := fsub (balance account) amt in
       if flt (balance account) amt
       then db' = db /\ issued db db' = []
       else
         account_writes (issued db db')
         = (if feq (balance account) new_balance then 0%nat else 1%nat)
         /\ transaction_inserts (issued db db') = 1%nat
         /\ committed db' = committed db ++ issued db db'
         /\ (forall row,
               crud.get_account_by_id db (id account) = Some row ->
               crud.get_account_by_id db' (id account)
               = Some {| id := id row; owner_name := owner_name row;
                         balance := new_balance;
                         created_at := created_at row |})
         /\ (forall j, j <> id account ->
             crud.get_account_by_id db' j = crud.get_account_by_id db j)
         /\ List.length (accounts db') = List.length (accounts db)
         /\ exists t,
              transactions db' = transactions db ++ [t]
              /\ account_id t = id account /\ type t = WITHDRAWAL
              /\ amount t = amt
              /\ issued db db'
                 = (if feq (balance account) new_balance
                    then [] else [UPDATE_account (id account)])
                   ++ [INSERT_transaction (tx_id t)]).
Proof.
  intros db. split; [| split].
  - intros name b. cbv zeta. unfold crud.create_account, issued.
    destruct (flt fzero b); simpl.
    + rewrite <- app_assoc, skipn_length_app. simpl.
      repeat split. eexists. repeat split.
    + rewrite skipn_length_app. simpl.
      repeat split. exists []. rewrite app_nil_r. repeat split.
  - intros account amt. cbv zeta. unfold crud.deposit, issued. simpl.
    rewrite <- app_assoc, skipn_length_app.
    split; [destruct (feq _ _); reflexivity|].
    split; [destruct (feq _ _); reflexivity|].
    split; [reflexivity|].
    split.
    { intros row Hrow. unfold crud.get_account_by_id in *. simpl.
      rewrite find_updated_row, Hrow. reflexivity. }
    split.
    { intros j Hj. unfold crud.get_account_by_id. simpl.
      apply find_other_row, Hj. }
    split; [apply length_map|].
    eexists. repeat split.
  - intros account amt. cbv zeta. unfold crud.withdraw, issued.
    destruct (flt (balance account) amt); simpl.
    + split; [reflexivity|]. apply skipn_all.
    + rewrite <- app_assoc, skipn_length_app.
      split; [destruct (feq _ _); reflexivity|].
      split; [destruct (feq _ _); reflexivity|].
      split; [reflexivity|].
      split.
      { intros row Hrow. unfold crud.get_account_by_id in *. simpl.
        rewrite find_updated_row, Hrow. reflexivity. }
      split.
      { intros j Hj. unfold crud.get_account_by_id. simpl.
        apply find_other_row, Hj. }
      split; [apply length_map|].
      eexists. repeat split.
Qed.

End CrudFacts.

(** ** The query layer *)

Section QueryFacts.
Context {F : Type}.

Lemma insert_desc_perm (t : Transaction F) (l : list (Transaction F)) :
  Permutation (crud.insert_desc t l) (t :: l).
Proof.
  induction l as [| u l IH]; simpl; [reflexivity|].
  destruct (timestamp u <? timestamp t); [reflexivity|].
  rewrite IH. apply perm_swap.
Qed.

Lemma order_by_timestamp_desc_perm (l : list (Transaction F)) :
  Permutation (crud.order_by_timestamp_desc l) l.
Proof.
  induction l as [| t l IH]; simpl; [constructor|].
  rewrite insert_desc_perm. constructor. exact IH.
Qed.

Lemma insert_desc_sorted (t : Transaction F) (l : list (Transaction F)) :
  StronglySorted newer_first l ->
  StronglySorted newer_first (crud.insert_desc t l).
Proof.
  induction l as [| u l IH]; intros Hs; simpl.
  - repeat constructor.
  - inversion_clear Hs as [| ? ? Hl Hu].
    destruct (timestamp u <? timestamp t) eqn:E.
    + apply Z.ltb_lt in E. constructor; [constructor; assumption|].
      constructor; [unfold newer_first; lia|].
      eapply Forall_impl; [| exact Hu]. unfold newer_first. intros x Hx. lia.
    + apply Z.ltb_ge in E. constructor; [apply IH; exact Hl|].
      eapply Permutation_Forall;
        [apply Permutation_sym, insert_desc_perm|].
      constructor; [exact E | exact Hu].
Qed.

Lemma order_by_timestamp_desc_sorted (l : list (Transaction F)) :
  StronglySorted newer_first (crud.order_by_timestamp_desc l).
Proof.
  induction l as [| t l IH]; simpl; [constructor|].
  apply insert_desc_sorted, IH.
Qed.

Lemma StronglySorted_skipn {A : Type} (R : A -> A -> Prop) (n : nat) :
  forall l, StronglySorted R l -> StronglySorted R (skipn n l).
Proof.
  induction n as [| n IH]; intros l Hs; [exact Hs|].
  destruct l as [| x l]; [constructor|].
  simpl. apply IH. inversion Hs; assumption.
Qed.

Lemma Forall_firstn {A : Type} (P : A -> Prop) (n : nat) :
  forall l, Forall P l -> Forall P (firstn n l).
Proof.
  induction n as [| n IH]; intros l Hl; [constructor|].
  destruct Hl as [| x l Hx Hl]; simpl; constructor; auto.
Qed.

Lemma StronglySorted_firstn {A : Type} (R : A -> A -> Prop) (n : nat) :
  forall l, StronglySorted R l -> StronglySorted R (firstn n l).
Proof.
  induction n as [| n IH]; intros l Hs; [constructor|].
  destruct Hs as [| x l Hl Hx]; simpl; constructor.
  - apply IH, Hl.
  - apply Forall_firstn, Hx.
Qed.

(** C8. For an offset and a limit that are not negative,
    [get_transactions_by_account] returns the rows [offset, offset + limit)
    of the account's transactions put in descending order of timestamp: the
    ordered list holds exactly the rows of the table with this account id,
    each as often as the table does, every row is at least as recent as those
    after it, and the page has [min limit (count - offset)] rows.
    [get_transaction_count_by_account] is the length of that whole list,
    whatever the limit and the offset. *)
Theorem page_is_newest_first_and_count_is_total :
  forall (db : Session F) (account_id0 limit offset : Z),
    0 <= limit -> 0 <= offset ->
    let rows := crud.by_account account_id0 (transactions db) in
    let all := crud.order_by_timestamp_desc rows in
    let page := crud.get_transactions_by_account db account_id0 limit offset in
    let count := crud.get_transaction_count_by_account db account_id0 in
    Permutation all rows
    /\ (forall t, In t all <-> In t (transactions db) /\ account_id t = account_id0)
    /\ StronglySorted newer_first all
    /\ page = firstn (Z.to_nat limit) (skipn (Z.to_nat offset) all)
    /\ StronglySorted newer_first page
    /\ count = List.length all
    /\ List.length page = Nat.min (Z.to_nat limit) (count - Z.to_nat offset).
Proof.
  intros db account_id0 limit offset Hl Ho. cbv zeta.
  pose proof (order_by_timestamp_desc_perm
                (crud.by_account account_id0 (transactions db))) as Hp.
  assert (Hpage : crud.get_transactions_by_account db account_id0 limit offset
                  = firstn (Z.to_nat limit)
                      (skipn (Z.to_nat offset)
                         (crud.order_by_timestamp_desc
                            (crud.by_account account_id0 (transactions db))))).
  { unfold crud.get_transactions_by_account, crud.sql_limit, crud.sql_offset.
    destruct (limit <? 0) eqn:E; [apply Z.ltb_lt in E; lia | reflexivity]. }
  assert (Hcount : crud.get_transaction_count_by_account db account_id0
                   = List.length
                       (crud.order_by_timestamp_desc
                          (crud.by_account account_id0 (transactions db)))).
  { unfold crud.get_transaction_count_by_account.
    symmetry. apply Permutation_length, Hp. }
  split; [exact Hp|].
  split.
  { intros t. split.
    - intros Hin. apply (Permutation_in _ Hp) in Hin.
      unfold crud.by_account in Hin. apply filter_In in Hin.
      destruct Hin as [Hin Hid]. apply Z.eqb_eq in Hid. tauto.
    - intros [Hin Hid]. apply (Permutation_in _ (Permutation_sym Hp)).
      unfold crud.by_account. apply filter_In. split; [exact Hin|].
      apply Z.eqb_eq, Hid. }
  split; [apply order_by_timestamp_desc_sorted|].
  split; [exact Hpage|].
  split.
  { rewrite Hpage. apply StronglySorted_firstn, StronglySorted_skipn.
    apply order_by_timestamp_desc_sorted. }
  split; [exact Hcount|].
  rewrite Hpage, Hcount, length_firstn, length_skipn. reflexivity.
Qed.

End QueryFacts.

(** ** [str.strip] *)

Lemma lstrip_head (s : str) (c : N) (r : str) :
  lstrip s = c :: r -> isspace c = false.
Proof.
  induction s as [| d s IH]; simpl; [discriminate|].
  destruct (isspace d) eqn:E; [exact IH|].
  intros H. injection H as -> _. exact E.
Qed.

Lemma lstrip_split (s : str) : exists p, blank p /\ s = p ++ lstrip s.
Proof.
  induction s as [| d s [p [Hp Hs]]]; simpl.
  - exists []. split; [constructor | reflexivity].
  - destruct (isspace d) eqn:E.
    + exists (d :: p). split; [constructor; assumption|].
      simpl. f_equal. exact Hs.
    + exists []. split; [constructor | reflexivity].
Qed.

Lemma lstrip_blank (p s : str) : blank p -> lstrip (p ++ s) = lstrip s.
Proof.
  induction 1 as [| c p Hc _ IH]; simpl; [reflexivity|].
  rewrite Hc. exact IH.
Qed.

Lemma lstrip_app (s q : str) :
  blank q -> exists q', blank q' /\ lstrip (s ++ q) = lstrip s ++ q'.
Proof.
  intros Hq. induction s as [| c s IH]; simpl.
  - exists []. split; [constructor|].
    rewrite <- (app_nil_r q), lstrip_blank by exact Hq. reflexivity.
  - destruct (isspace c); [exact IH|].
    exists q. split; [exact Hq | reflexivity].
Qed.

Lemma blank_rev (q : str) : blank q -> blank (rev q).
Proof.
  unfold blank. rewrite !Forall_forall. intros H c Hc.
  apply H, in_rev, Hc.
Qed.

Lemma rstrip_blank (s q : str) : blank q -> rstrip (s ++ q) = rstrip s.
Proof.
  intros Hq. unfold rstrip.
  rewrite rev_app_distr, lstrip_blank by (apply blank_rev, Hq). reflexivity.
Qed.

(** White space around a text does not change what [strip] returns. *)
Lemma strip_padding (p s q : str) :
  blank p -> blank q -> strip (p ++ s ++ q) = strip s.
Proof.
  intros Hp Hq. unfold strip. rewrite lstrip_blank by exact Hp.
  destruct (lstrip_app s q Hq) as [q' [Hq' ->]].
  apply rstrip_blank, Hq'.
Qed.

(** What [strip] returns has no white space at either end. *)
Lemma strip_trimmed (s : str) : trimmed (strip s).
Proof.
  unfold strip, rstrip.
  destruct (lstrip_split (rev (lstrip s))) as [p [Hp Hs]].
  remember (lstrip (rev (lstrip s))) as v eqn:Hv.
  assert (Hu : lstrip s = rev v ++ rev p).
  { rewrite <- (rev_involutive (lstrip s)), Hs. apply rev_app_distr. }
  destruct (rev v) as [| c r] eqn:Hr; [exact I|].
  change (isspace c = false /\ isspace (last (c :: r) c) = false).
  split.
  - apply (lstrip_head s c (r ++ rev p)). rewrite Hu. reflexivity.
  - destruct v as [| h v']; [discriminate|].
    simpl in Hr. rewrite <- Hr, last_last.
    apply (lstrip_head (rev (lstrip s)) h v'). symmetry. exact Hv.
Qed.

Lemma str_eqb_eq (s t : str) : str_eqb s t = true <-> s = t.
Proof.
  unfold str_eqb. destruct (list_eq_dec N.eq_dec s t); split;
    congruence.
Qed.

Lemma str_eqb_refl (s : str) : str_eqb s s = true.
Proof.
  apply str_eqb_eq. reflexivity.
Qed.

(** ** Every request acts through the core *)

Section EffectFacts.
Context {F : Type} {num : Number F}.

Lemma get_account_by_id_sound (db : Session F) (i : Z) (a : Account F) :
  crud.get_account_by_id db i = Some a ->
  In a (accounts db) /\ crud.get_account_by_id db (id a) = Some a.
Proof.
  unfold crud.get_account_by_id. intros H.
  destruct (find_some _ _ H) as [Hin Hid]. apply Z.eqb_eq in Hid.
  rewrite Hid. split; assumption.
Qed.

Lemma validated_owner_name (raw : str) (b : option F)
  (data : schemas.AccountCreate F) :
  schemas.AccountCreate_validate raw b = Some data ->
  schemas.data_owner_name data = strip raw
  /\ strip raw <> []
  /\ (List.length raw <= 255)%nat
  /\ accepted_initial (schemas.data_initial_balance data)
  /\ schemas.data_initial_balance data
     = match b with Some x => x | None => fzero end.
Proof.
  unfold schemas.AccountCreate_validate, schemas.validate_owner_name.
  destruct ((1 <=? List.length raw)%nat && (List.length raw <=? 255)%nat)
    eqn:Elen; [| discriminate].
  apply andb_true_iff in Elen. destruct Elen as [_ Elen].
  apply Nat.leb_le in Elen.
  destruct (strip raw) as [| c r] eqn:Es; [discriminate|].
  destruct b as [x |].
  - destruct (fle fzero x) eqn:Ex; [| discriminate].
    intros H. injection H as <-. simpl.
    repeat split; try congruence; try assumption.
    right. left. exact Ex.
  - intros H. injection H as <-. simpl.
    repeat split; try congruence; try assumption.
    left. reflexivity.
Qed.

Lemma http_create_effect (db : Session F) (raw : str) (b : option F) :
  effect db (fst (main.create_account db raw b)).
Proof.
  unfold main.create_account.
  destruct (schemas.AccountCreate_validate raw b) as [data |] eqn:Ev;
    [| apply effect_none].
  destruct (validated_owner_name _ _ _ Ev) as [Hn [Hne [_ [Hb _]]]].
  destruct (crud.get_account_by_owner_name db (schemas.data_owner_name data))
    eqn:Eo; [apply effect_none|].
  destruct (crud.create_account db (schemas.data_owner_name data)
              (schemas.data_initial_balance data)) as [db' account] eqn:Ec.
  change db' with (fst (db', account)). rewrite <- Ec.
  apply effect_create; try assumption.
  - rewrite Hn. exact Hne.
  - rewrite Hn. apply strip_trimmed.
Qed.

Lemma deposit_effect (db : Session F) (i : Z) (account : Account F) (amt : F) :
  crud.get_account_by_id db i = Some account ->
  effect db (fst (crud.deposit db account amt)).
Proof.
  intros H. apply effect_deposit, (get_account_by_id_sound db i), H.
Qed.

Lemma withdraw_effect (db : Session F) (i : Z) (account : Account F) (amt : F) :
  crud.get_account_by_id db i = Some account ->
  flt (balance account) amt = false ->
  effect db (fst (crud.withdraw db account amt)).
Proof.
  intros H Hb. apply effect_withdraw; [| exact Hb].
  apply (get_account_by_id_sound db i), H.
Qed.

Lemma withdraw_some (db : Session F) (account : Account F) (amt : F) :
  flt (balance account) amt = false ->
  exists db' account',
    crud.withdraw db account amt = (db', Some account').
Proof.
  intros Hb. unfold crud.withdraw. rewrite Hb. simpl. eauto.
Qed.

Lemma call_tool_effect (db : Session F) (name : string)
  (arguments : mcp_server.ToolArguments F) :
  effect db (fst (mcp_server.call_tool db name arguments)).
Proof.
  unfold mcp_server.call_tool.
  destruct (name =? "create_account")%string.
  { destruct (strip _) as [| c r] eqn:Es; [apply effect_none|].
    destruct (flt _ fzero) eqn:Eb; [apply effect_none|].
    destruct (crud.get_account_by_owner_name db (c :: r)) eqn:Eo;
      [apply effect_none|].
    match goal with
    | |- context [crud.create_account db ?n ?b] =>
        destruct (crud.create_account db n b) as [db' account] eqn:Ec;
        change db' with (fst (db', account)); rewrite <- Ec;
        apply effect_create
    end.
    - discriminate.
    - rewrite <- Es. apply strip_trimmed.
    - exact Eo.
    - right. right. exact Eb. }
  destruct (name =? "deposit")%string.
  { destruct (mcp_server.arg_amount arguments) as [amt |];
      [| apply effect_none].
    destruct (fle amt fzero); [apply effect_none|].
    unfold mcp_server.account_of.
    destruct (mcp_server.arg_account_id arguments) as [i |];
      [| apply effect_none].
    destruct (crud.get_account_by_id db i) as [account |] eqn:Ea;
      [| apply effect_none].
    destruct (crud.deposit db account amt) as [db' account'] eqn:Ec.
    change db' with (fst (db', account')). rewrite <- Ec.
    apply (deposit_effect db i), Ea. }
  destruct (name =? "withdraw")%string.
  { destruct (mcp_server.arg_amount arguments) as [amt |];
      [| apply effect_none].
    destruct (fle amt fzero); [apply effect_none|].
    unfold mcp_server.account_of.
    destruct (mcp_server.arg_account_id arguments) as [i |];
      [| apply effect_none].
    destruct (crud.get_account_by_id db i) as [account |] eqn:Ea;
      [| apply effect_none].
    destruct (flt (balance account) amt) eqn:Eb; [apply effect_none|].
    pose proof (withdraw_effect db i account amt Ea Eb) as He.
    destruct (withdraw_some db account amt Eb) as [db' [account' Ew]].
    rewrite Ew in *. exact He. }
  destruct (name =? "get_balance")%string.
  { destruct (mcp_server.account_of _ _); apply effect_none. }
  destruct (name =? "get_transactions")%string.
  { destruct (mcp_server.arg_account_id arguments) as [i |];
      [| apply effect_none].
    destruct (crud.get_account_by_id db i); apply effect_none. }
  destruct (name =? "list_accounts")%string; apply effect_none.
Qed.

Lemma serve_effect (db : Session F) (r : Request F) : effect db (serve db r).
Proof.
  destruct r as [raw b | i amt | i amt | i | i l o | name args]; simpl.
  - apply http_create_effect.
  - unfold main.deposit, schemas.DepositRequest_validate.
    destruct (flt fzero amt); [| apply effect_none].
    destruct (crud.get_account_by_id db i) as [account |] eqn:Ea;
      [| apply effect_none].
    destruct (crud.deposit db account amt) as [db' account'] eqn:Ec.
    change db' with (fst (db', account')). rewrite <- Ec.
    apply (deposit_effect db i), Ea.
  - unfold main.withdraw, schemas.WithdrawRequest_validate.
    destruct (flt fzero amt); [| apply effect_none].
    destruct (crud.get_account_by_id db i) as [account |] eqn:Ea;
      [| apply effect_none].
    destruct (flt (balance account) amt) eqn:Eb; [apply effect_none|].
    pose proof (withdraw_effect db i account amt Ea Eb) as He.
    destruct (withdraw_some db account amt Eb) as [db' [account' Ew]].
    rewrite Ew in *. exact He.
  - unfold main.get_balance.
    destruct (crud.get_account_by_id db i); apply effect_none.
  - unfold main.get_transactions.
    destruct (main.Query_limit l); [| apply effect_none].
    destruct (main.Query_offset o); [| apply effect_none].
    destruct (crud.get_account_by_id db i); apply effect_none.
  - apply call_tool_effect.
Qed.

(** Induction over the sessions reached from the empty store. *)
Lemma run_invariant (P : Session F -> Prop) (clock : nat -> datetime) :
  P (empty clock) ->
  (forall db db', P db -> effect db db' -> P db') ->
  forall rs, P (run (empty clock) rs).
Proof.
  intros H0 Hstep rs. unfold run.
  generalize dependent (empty (F := F) clock).
  induction rs as [| r rs IH]; intros db Hdb; simpl; [exact Hdb|].
  apply IH, (Hstep db); [exact Hdb | apply serve_effect].
Qed.

End EffectFacts.

(** ** Invariants of the sessions reached from the empty store *)

Section Invariants.
Context {F : Type} {num : Number F}.

Lemma next_id_above (keys : list Z) (k : Z) :
  In k keys -> k < crud.next_id keys.
Proof.
  unfold crud.next_id.
  induction keys as [| x keys IH]; cbn [fold_right In]; [tauto|].
  intros [-> | Hin]; [lia|]. specialize (IH Hin). lia.
Qed.

Lemma next_id_fresh (keys : list Z) : ~ In (crud.next_id keys) keys.
Proof.
  intros Hin. apply next_id_above in Hin. lia.
Qed.

Lemma map_id_updated (k : Z) (b : F) (l : list (Account F)) :
  map id (map (fun row => if id row =? k then crud.set_balance row b else row) l)
  = map id l.
Proof.
  rewrite map_map. apply map_ext. intros r.
  destruct (id r =? k); reflexivity.
Qed.

Lemma map_owner_name_updated (k : Z) (b : F) (l : list (Account F)) :
  map owner_name
      (map (fun row => if id row =? k then crud.set_balance row b else row) l)
  = map owner_name l.
Proof.
  rewrite map_map. apply map_ext. intros r.
  destruct (id r =? k); reflexivity.
Qed.

Lemma NoDup_snoc {A : Type} (l : list A) (x : A) :
  NoDup l -> ~ In x l -> NoDup (l ++ [x]).
Proof.
  intros Hl Hx.
  apply (Permutation_NoDup (Permutation_cons_append l x)).
  constructor; assumption.
Qed.

(** The accounts and transactions tables after each core mutation. *)
Lemma create_account_tables (db : Session F) (name : str) (b : F) :
  let account := snd (crud.create_account db name b) in
  let db' := fst (crud.create_account db name b) in
  account
  = {| id := crud.next_id (map id (accounts db)); owner_name := name;
       balance := b; created_at := utcnow db (readings db) |}
  /\ accounts db' = accounts db ++ [account]
  /\ exists new,
       transactions db' = transactions db ++ new
       /\ Forall (fun t => account_id t = id account /\ type t = DEPOSIT
                           /\ amount t = b) new
       /\ (if flt fzero b then List.length new = 1%nat else new = []).
Proof.
  cbv zeta. unfold crud.create_account.
  destruct (flt fzero b); simpl.
  - repeat split. eexists. split; [reflexivity|].
    split; [| reflexivity]. repeat constructor.
  - repeat split. exists []. rewrite app_nil_r. repeat constructor.
Qed.

Lemma deposit_tables (db : Session F) (account : Account F) (amt : F) :
  let db' := fst (crud.deposit db account amt) in
  accounts db'
  = map (fun row => if id row =? id account
                    then crud.set_balance row (fadd (balance account) amt)
                    else row) (accounts db)
  /\ exists t,
       transactions db' = transactions db ++ [t]
       /\ account_id t = id account /\ type t = DEPOSIT /\ amount t = amt.
Proof.
  cbv zeta. unfold crud.deposit. simpl. split; [reflexivity|].
  eexists. repeat split.
Qed.

Lemma withdraw_tables (db : Session F) (account : Account F) (amt : F) :
  flt (balance account) amt = false ->
  let db' := fst (crud.withdraw db account amt) in
  accounts db'
  = map (fun row => if id row =? id account
                    then crud.set_balance row (fsub (balance account) amt)
                    else row) (accounts db)
  /\ exists t,
       transactions db' = transactions db ++ [t]
       /\ account_id t = id account /\ type t = WITHDRAWAL /\ amount t = amt.
Proof.
  intros Hb. cbv zeta. unfold crud.withdraw. rewrite Hb. simpl.
  split; [reflexivity|]. eexists. repeat split.
Qed.

Lemma effect_keys_consistent (db db' : Session F) :
  keys_consistent db -> effect db db' -> keys_consistent db'.
Proof.
  intros [Hnd Hfk] He. unfold keys_consistent.
  destruct He as [| name b _ _ _ _ | account amt Ha | account amt Ha Hb].
  - split; assumption.
  - destruct (create_account_tables db name b) as [Hacc [-> [new [-> [Hnew _]]]]].
    rewrite map_app. simpl. split.
    + apply NoDup_snoc; [exact Hnd|].
      rewrite Hacc. simpl. apply next_id_fresh.
    + apply Forall_app. split.
      * eapply Forall_impl; [| exact Hfk]. intros t Ht.
        apply in_or_app. left. exact Ht.
      * eapply Forall_impl; [| exact Hnew]. intros t [Ht _].
        apply in_or_app. right. left. symmetry. exact Ht.
  - destruct (deposit_tables db account amt) as [-> [t [-> [Ht _]]]].
    rewrite map_id_updated. split; [exact Hnd|].
    apply Forall_app. split; [exact Hfk|]. constructor; [| constructor].
    rewrite Ht. apply in_map, (get_account_by_id_sound db (id account)), Ha.
  - destruct (withdraw_tables db account amt Hb) as [-> [t [-> [Ht _]]]].
    rewrite map_id_updated. split; [exact Hnd|].
    apply Forall_app. split; [exact Hfk|]. constructor; [| constructor].
    rewrite Ht. apply in_map, (get_account_by_id_sound db (id account)), Ha.
Qed.

Lemma effect_owner_names_distinct (db db' : Session F) :
  NoDup (map owner_name (accounts db)) -> effect db db' ->
  NoDup (map owner_name (accounts db')).
Proof.
  intros Hnd He.
  destruct He as [| name b _ _ Hnone _ | account amt Ha | account amt Ha Hb].
  - exact Hnd.
  - destruct (create_account_tables db name b) as [Hacc [-> _]].
    rewrite map_app. simpl. apply NoDup_snoc; [exact Hnd|].
    rewrite Hacc. simpl. intros Hin. apply in_map_iff in Hin.
    destruct Hin as [a [Hname Hin]].
    unfold crud.get_account_by_owner_name in Hnone.
    pose proof (find_none _ _ Hnone a Hin) as Hf. simpl in Hf.
    rewrite Hname, str_eqb_refl in Hf. discriminate.
  - destruct (deposit_tables db account amt) as [-> _].
    rewrite map_owner_name_updated. exact Hnd.
  - destruct (withdraw_tables db account amt Hb) as [-> _].
    rewrite map_owner_name_updated. exact Hnd.
Qed.

Lemma effect_owner_names_trimmed (db db' : Session F) :
  Forall (fun a => owner_name a <> [] /\ trimmed (owner_name a)) (accounts db) ->
  effect db db' ->
  Forall (fun a => owner_name a <> [] /\ trimmed (owner_name a)) (accounts db').
Proof.
  intros Hall He.
  destruct He as [| name b Hne Htr _ _ | account amt Ha | account amt Ha Hb].
  - exact Hall.
  - destruct (create_account_tables db name b) as [Hacc [-> _]].
    apply Forall_app. split; [exact Hall|]. constructor; [| constructor].
    rewrite Hacc. simpl. split; assumption.
  - destruct (deposit_tables db account amt) as [-> _].
    apply Forall_map. eapply Forall_impl; [| exact Hall].
    intros r Hr. destruct (id r =? id account); exact Hr.
  - destruct (withdraw_tables db account amt Hb) as [-> _].
    apply Forall_map. eapply Forall_impl; [| exact Hall].
    intros r Hr. destruct (id r =? id account); exact Hr.
Qed.

End Invariants.

(** ** Balance and ledger *)

Section LedgerFacts.
Context {F : Type} {num : Number F}.

Lemma by_account_app (k : Z) (l1 l2 : list (Transaction F)) :
  crud.by_account k (l1 ++ l2) = crud.by_account k l1 ++ crud.by_account k l2.
Proof.
  apply filter_app.
Qed.

Lemma by_account_foreign (k j : Z) (l : list (Transaction F)) :
  Forall (fun t => account_id t = j) l -> j <> k -> crud.by_account k l = [].
Proof.
  intros Hl Hjk. induction Hl as [| t l Ht _ IH]; simpl; [reflexivity|].
  rewrite Ht. destruct (j =? k) eqn:E; [apply Z.eqb_eq in E; tauto | exact IH].
Qed.

Lemma by_account_own (k : Z) (l : list (Transaction F)) :
  Forall (fun t => account_id t = k) l -> crud.by_account k l = l.
Proof.
  induction 1 as [| t l Ht _ IH]; simpl; [reflexivity|].
  rewrite Ht, Z.eqb_refl, IH. reflexivity.
Qed.

Lemma by_account_unknown (k : Z) (keys : list Z) (l : list (Transaction F)) :
  Forall (fun t => In (account_id t) keys) l -> ~ In k keys ->
  crud.by_account k l = [].
Proof.
  intros Hl Hk. induction Hl as [| t l Ht _ IH]; simpl; [reflexivity|].
  destruct (account_id t =? k) eqn:E; [| exact IH].
  apply Z.eqb_eq in E. congruence.
Qed.

Lemma total_snoc (ty : TransactionType) (rows : list (Transaction F))
  (t : Transaction F) :
  total ty (rows ++ [t])
  = if TransactionType_eqb (type t) ty
    then fadd (total ty rows) (amount t) else total ty rows.
Proof.
  unfold total. rewrite filter_app. simpl.
  destruct (TransactionType_eqb (type t) ty).
  - rewrite map_app, fold_left_app. reflexivity.
  - rewrite app_nil_r. reflexivity.
Qed.

Lemma same_key_same_row (l : list (Account F)) (x y : Account F) :
  NoDup (map id l) -> In x l -> In y l -> id x = id y -> x = y.
Proof.
  induction l as [| r l IH]; simpl; [tauto|].
  intros Hnd Hx Hy Hid. inversion_clear Hnd as [| ? ? Hr Hl].
  destruct Hx as [-> | Hx], Hy as [-> | Hy].
  - reflexivity.
  - exfalso. apply Hr. rewrite Hid. apply in_map, Hy.
  - exfalso. apply Hr. rewrite <- Hid. apply in_map, Hx.
  - apply IH; assumption.
Qed.

End LedgerFacts.

Section ExactLedger.
Context {F : Type} {num : Number F}.
Context {exact : ExactArith F} {order : TotalOrder F}.

Lemma fadd_zero_r (x : F) : fadd x fzero = x.
Proof.
  rewrite fadd_comm. apply fadd_zero_l.
Qed.

Lemma fsub_zero_r (x : F) : fsub x fzero = x.
Proof.
  rewrite <- (fadd_zero_r x) at 1. apply fadd_fsub.
Qed.

Lemma deposit_shift (d w a : F) : fadd (fsub d w) a = fsub (fadd d a) w.
Proof.
  rewrite <- (fadd_fsub (fadd (fsub d w) a) w).
  f_equal. rewrite <- fadd_assoc, (fadd_comm a w), fadd_assoc, fsub_fadd.
  reflexivity.
Qed.

Lemma withdraw_shift (d w a : F) : fsub (fsub d w) a = fsub d (fadd w a).
Proof.
  rewrite <- (fadd_fsub (fsub (fsub d w) a) (fadd w a)).
  f_equal. rewrite (fadd_comm w a), fadd_assoc, !fsub_fadd.
  reflexivity.
Qed.

Lemma accepted_not_positive (b : F) :
  accepted_initial b -> flt fzero b = false -> b = fzero.
Proof.
  intros [Hb | [Hb | Hb]] Hpos.
  - exact Hb.
  - rewrite fle_flt in Hb. apply negb_true_iff in Hb.
    apply flt_trichotomy; assumption.
  - apply flt_trichotomy; assumption.
Qed.

Lemma effect_balanced (db db' : Session F) :
  keys_consistent db -> balanced db -> effect db db' -> balanced db'.
Proof.
  intros [Hnd Hfk] Hbal He.
  destruct He as [| name b _ _ _ Hb | account amt Ha | account amt Ha Hlt].
  - exact Hbal.
  - destruct (create_account_tables db name b)
      as [Hacc [Haccs [new [Htx [Hnew Hlen]]]]].
    set (a0 := snd (crud.create_account db name b)) in *.
    assert (Hid : id a0 = crud.next_id (map id (accounts db)))
      by (rewrite Hacc; reflexivity).
    assert (Hfresh : ~ In (id a0) (map id (accounts db)))
      by (rewrite Hid; apply next_id_fresh).
    intros a Hin. unfold ledger_balance. rewrite Haccs in Hin. rewrite Htx.
    rewrite by_account_app.
    apply in_app_or in Hin. destruct Hin as [Hin | [<- | []]].
    + rewrite (by_account_foreign (id a) (id a0) new), app_nil_r.
      * apply Hbal, Hin.
      * eapply Forall_impl; [| exact Hnew]. intros t Ht. apply Ht.
      * intros Heq. apply Hfresh. rewrite Heq. apply in_map, Hin.
    + rewrite (by_account_unknown (id a0) _ _ Hfk Hfresh). simpl.
      rewrite by_account_own
        by (eapply Forall_impl; [| exact Hnew]; intros t Ht; apply Ht).
      assert (Hbal0 : balance a0 = b) by (rewrite Hacc; reflexivity).
      destruct (flt fzero b) eqn:Epos.
      * destruct new as [| t [| ? ?]]; try discriminate.
        inversion_clear Hnew as [| ? ? [_ [Hty Hamt]] _].
        unfold total. simpl. rewrite Hty. simpl.
        rewrite Hamt, fadd_zero_l, fsub_zero_r. exact Hbal0.
      * subst new. unfold total. simpl. rewrite fsub_zero_r, Hbal0.
        apply accepted_not_positive; assumption.
  - destruct (deposit_tables db account amt)
      as [Haccs [t [Htx [Hacct [Hty Hamt]]]]].
    destruct (get_account_by_id_sound db _ _ Ha) as [Hacc _].
    intros a Hin. unfold ledger_balance. rewrite Haccs in Hin. rewrite Htx.
    apply in_map_iff in Hin. destruct Hin as [r [Hr Hin]].
    rewrite by_account_app. simpl. rewrite Hacct.
    destruct (id r =? id account) eqn:E.
    + apply Z.eqb_eq in E.
      assert (r = account) by (apply (same_key_same_row (accounts db)); assumption).
      subst r a. simpl. rewrite Z.eqb_refl.
      rewrite !total_snoc, Hty, Hamt. simpl.
      rewrite (Hbal account Hacc). apply deposit_shift.
    + subst a. rewrite Z.eqb_sym, E, app_nil_r. apply Hbal, Hin.
  - destruct (withdraw_tables db account amt Hlt)
      as [Haccs [t [Htx [Hacct [Hty Hamt]]]]].
    destruct (get_account_by_id_sound db _ _ Ha) as [Hacc _].
    intros a Hin. unfold ledger_balance. rewrite Haccs in Hin. rewrite Htx.
    apply in_map_iff in Hin. destruct Hin as [r [Hr Hin]].
    rewrite by_account_app. simpl. rewrite Hacct.
    destruct (id r =? id account) eqn:E.
    + apply Z.eqb_eq in E.
      assert (r = account) by (apply (same_key_same_row (accounts db)); assumption).
      subst r a. simpl. rewrite Z.eqb_refl.
      rewrite !total_snoc, Hty, Hamt. simpl.
      rewrite (Hbal account Hacc). apply withdraw_shift.
    + subst a. rewrite Z.eqb_sym, E, app_nil_r. apply Hbal, Hin.
Qed.

(** C1, as the code has it.  In every session reached from the empty store
    by requests to the two front-ends, whatever their outcome, and when sums
    and differences are exact: the balance of each account is the sum of the
    amounts of its DEPOSIT transactions minus the sum of the amounts of its
    WITHDRAWAL transactions.  A positive initial balance is among the
    deposits, as the row [create_account] records for it, and is not added
    a second time. *)
Theorem balance_is_deposits_minus_withdrawals :
  forall (clock : nat -> datetime) (rs : list (Request F)) (a : Account F),
    In a (accounts (run (empty clock) rs)) ->
    balance a
    = fsub (total DEPOSIT
              (crud.by_account (id a) (transactions (run (empty clock) rs))))
           (total WITHDRAWAL
              (crud.by_account (id a) (transactions (run (empty clock) rs)))).
Proof.
  intros clock rs.
  assert (H : keys_consistent (run (empty clock) rs)
              /\ balanced (run (empty clock) rs)).
  { apply (run_invariant (fun db => keys_consistent db /\ balanced db)).
    - split; [split; constructor | intros a []].
    - intros db db' [Hk Hb] He. split.
      + eapply effect_keys_consistent; eassumption.
      + eapply effect_balanced; eassumption. }
  destruct H as [_ Hbal]. exact Hbal.
Qed.

End ExactLedger.

(** ** Owner names *)

Section OwnerNames.
Context {F : Type} {num : Number F}.

(** C4, as the code has it.  The [owner_name] column is declared
    [nullable=False, index=True], with no uniqueness constraint, and the
    store accepts a second row with the same owner.  Distinct owner names
    are an invariant of the front-ends, which look the name up before they
    create: in every session reached from the empty store by requests to the
    two front-ends, no two accounts have the same owner name. *)
Theorem owner_names_distinct_through_front_ends :
  forall (clock : nat -> datetime) (rs : list (Request F)),
    NoDup (map owner_name (accounts (run (empty clock) rs))).
Proof.
  intros clock rs. apply run_invariant.
  - constructor.
  - apply effect_owner_names_distinct.
Qed.

Lemma owner_is_found (db : Session F) (a : Account F) (name : str) :
  In a (accounts db) -> owner_name a = name ->
  exists a', crud.get_account_by_owner_name db name = Some a'.
Proof.
  intros Hin Hname. unfold crud.get_account_by_owner_name.
  destruct (find _ (accounts db)) as [a' |] eqn:Ef; [eauto|].
  pose proof (find_none _ _ Ef a Hin) as Hf. simpl in Hf.
  rewrite Hname, str_eqb_refl in Hf. discriminate.
Qed.

Lemma http_refuses_duplicate (db : Session F) (a : Account F) (raw : str)
  (b : option F) :
  In a (accounts db) -> owner_name a = strip raw ->
  fst (main.create_account db raw b) = db
  /\ (schemas.AccountCreate_validate raw b <> None ->
      main.create_account db raw b
      = (db, main.HTTP_409_CONFLICT
               "Account with this owner name already exists")).
Proof.
  intros Hin Hname. unfold main.create_account.
  destruct (schemas.AccountCreate_validate raw b) as [data |] eqn:Ev.
  - destruct (validated_owner_name _ _ _ Ev) as [Hn _].
    destruct (owner_is_found db a _ Hin Hname) as [a' Ha'].
    rewrite Hn, Ha'. split; reflexivity.
  - split; [reflexivity | congruence].
Qed.

Lemma tool_refuses_duplicate (db : Session F) (a : Account F) (raw : str)
  (b : option F) :
  In a (accounts db) -> owner_name a = strip raw ->
  fst (mcp_server.call_tool db "create_account" (create_args raw b)) = db
  /\ (strip raw <> [] ->
      flt (match b with Some x => x | None => fzero end) fzero = false ->
      mcp_server.call_tool db "create_account" (create_args raw b)
      = (db, mcp_server.Error
               "Error: Account with this owner name already exists")).
Proof.
  intros Hin Hname. unfold mcp_server.call_tool. simpl.
  destruct (owner_is_found db a _ Hin Hname) as [a' Ha'].
  destruct (strip raw) as [| c r] eqn:Es.
  - split; [reflexivity | congruence].
  - destruct (flt _ fzero) eqn:Eb.
    + split; [reflexivity | congruence].
    + rewrite Ha'. split; reflexivity.
Qed.

(** C3, as the code has it.  When an account with the owner name (as
    stripped by the front-end) exists, a create request through either
    front-end leaves the session as it is: no account row and no transaction
    row is added.  A request that passes validation is answered with the
    duplicate-owner error (HTTP 409, or the tool's error text).  The check
    is the front-end's call of [get_account_by_owner_name] before
    [crud.create_account]; the core function itself checks nothing. *)
Theorem front_ends_refuse_duplicate_owner :
  forall (db : Session F) (a : Account F) (raw : str) (b : option F),
    In a (accounts db) -> owner_name a = strip raw ->
    (crud.get_account_by_owner_name db (strip raw) <> None)
    /\ (fst (main.create_account db raw b) = db
        /\ (schemas.AccountCreate_validate raw b <> None ->
            main.create_account db raw b
            = (db, main.HTTP_409_CONFLICT
                     "Account with this owner name already exists")))
    /\ (fst (mcp_server.call_tool db "create_account" (create_args raw b)) = db
        /\ (strip raw <> [] ->
            flt (match b with Some x => x | None => fzero end) fzero = false ->
            mcp_server.call_tool db "create_account" (create_args raw b)
            = (db, mcp_server.Error
                     "Error: Account with this owner name already exists"))).
Proof.
  intros db a raw b Hin Hname. split; [| split].
  - destruct (owner_is_found db a _ Hin Hname) as [a' ->]. discriminate.
  - apply (http_refuses_duplicate db a); assumption.
  - apply (tool_refuses_duplicate db a); assumption.
Qed.

Lemma http_created (db : Session F) (raw : str) (b : option F) (a : Account F) :
  snd (main.create_account db raw b) = main.HTTP_201_CREATED a ->
  owner_name a = strip raw
  /\ crud.get_account_by_owner_name db (strip raw) = None
  /\ In a (accounts (fst (main.create_account db raw b))).
Proof.
  unfold main.create_account.
  destruct (schemas.AccountCreate_validate raw b) as [data |] eqn:Ev;
    [| discriminate].
  destruct (validated_owner_name _ _ _ Ev) as [Hn _]. rewrite Hn.
  destruct (crud.get_account_by_owner_name db (strip raw)) eqn:Eo;
    [discriminate|].
  pose proof (create_account_tables db (strip raw)
                (schemas.data_initial_balance data)) as [Hacc [Haccs _]].
  destruct (crud.create_account db (strip raw)
              (schemas.data_initial_balance data)) as [db' a'].
  simpl in *. intros H. injection H as <-.
  rewrite Hacc, Haccs. repeat split.
  apply in_or_app. right. left. exact Hacc.
Qed.

Lemma tool_created (db : Session F) (raw : str) (b : option F) (a : Account F) :
  snd (mcp_server.call_tool db "create_account" (create_args raw b))
  = mcp_server.Account_created a ->
  owner_name a = strip raw
  /\ crud.get_account_by_owner_name db (strip raw) = None
  /\ In a (accounts
             (fst (mcp_server.call_tool db "create_account"
                     (create_args raw b)))).
Proof.
  unfold mcp_server.call_tool. simpl.
  destruct (strip raw) as [| c r] eqn:Es; [discriminate|].
  destruct (flt _ fzero); [discriminate|].
  destruct (crud.get_account_by_owner_name db (c :: r)) eqn:Eo;
    [discriminate|].
  match goal with
  | |- context [crud.create_account db ?n ?x] =>
      pose proof (create_account_tables db n x) as [Hacc [Haccs _]];
      destruct (crud.create_account db n x) as [db' a']
  end.
  simpl in *. intros H. injection H as <-.
  rewrite Hacc, Haccs. repeat split.
  apply in_or_app. right. left. exact Hacc.
Qed.

(** C10.  (1) In every session reached from the empty store by requests to
    the two front-ends, every owner name is non-empty and has no white space
    at either end.  (2, 3) An account created by a front-end bears the
    stripped name, and the duplicate check that let it through was made on
    the stripped name.  (4) A name that is empty once stripped is refused by
    both front-ends.  (5) After a creation through either front-end, a
    request for the same name with white space around it adds nothing
    through either front-end, and is answered as a duplicate once it passes
    validation. *)
Theorem persisted_owner_names_are_stripped :
  (forall (clock : nat -> datetime) (rs : list (Request F)) (a : Account F),
     In a (accounts (run (empty clock) rs)) ->
     owner_name a <> [] /\ trimmed (owner_name a))
  /\ (forall (db : Session F) (raw : str) (b : option F) (a : Account F),
        snd (main.create_account db raw b) = main.HTTP_201_CREATED a ->
        owner_name a = strip raw
        /\ crud.get_account_by_owner_name db (strip raw) = None
        /\ In a (accounts (fst (main.create_account db raw b))))
  /\ (forall (db : Session F) (raw : str) (b : option F) (a : Account F),
        snd (mcp_server.call_tool db "create_account" (create_args raw b))
        = mcp_server.Account_created a ->
        owner_name a = strip raw
        /\ crud.get_account_by_owner_name db (strip raw) = None
        /\ In a (accounts
                   (fst (mcp_server.call_tool db "create_account"
                           (create_args raw b)))))
  /\ (forall (db : Session F) (raw : str) (b : option F),
        strip raw = [] ->
        main.create_account db raw b = (db, main.HTTP_422_UNPROCESSABLE)
        /\ mcp_server.call_tool db "create_account" (create_args raw b)
           = (db, mcp_server.Error "Error: Owner name cannot be empty"))
  /\ (forall (db : Session F) (raw : str) (b : option F) (a : Account F)
             (db1 : Session F) (p q : str) (b2 : option F),
        (main.create_account db raw b = (db1, main.HTTP_201_CREATED a)
         \/ mcp_server.call_tool db "create_account" (create_args raw b)
            = (db1, mcp_server.Account_created a)) ->
        blank p -> blank q ->
        let raw2 := p ++ raw ++ q in
        (fst (main.create_account db1 raw2 b2) = db1
         /\ (schemas.AccountCreate_validate raw2 b2 <> None ->
             main.create_account db1 raw2 b2
             = (db1, main.HTTP_409_CONFLICT
                       "Account with this owner name already exists")))
        /\ (fst (mcp_server.call_tool db1 "create_account"
                   (create_args raw2 b2)) = db1
            /\ (flt (match b2 with Some x => x | None => fzero end) fzero
                = false ->
                mcp_server.call_tool db1 "create_account"
                  (create_args raw2 b2)
                = (db1, mcp_server.Error
                          "Error: Account with this owner name already exists")))).
Proof.
  split; [| split; [| split; [| split]]].
  - intros clock rs a Hin.
    assert (H : Forall (fun a => owner_name a <> [] /\ trimmed (owner_name a))
                  (accounts (run (empty clock) rs))).
    { apply (run_invariant
               (fun db => Forall (fun a => owner_name a <> []
                                           /\ trimmed (owner_name a))
                                 (accounts db))).
      - constructor.
      - apply effect_owner_names_trimmed. }
    rewrite Forall_forall in H. apply H, Hin.
  - apply http_created.
  - apply tool_created.
  - intros db raw b Hs. split.
    + unfold main.create_account, schemas.AccountCreate_validate,
        schemas.validate_owner_name.
      rewrite Hs. destruct (_ && _)%bool; reflexivity.
    + unfold mcp_server.call_tool. simpl. rewrite Hs. reflexivity.
  - intros db raw b a db1 p q b2 Hfirst Hp Hq raw2.
    assert (Ha : owner_name a = strip raw /\ In a (accounts db1)
                 /\ strip raw <> []).
    { destruct Hfirst as [H | H].
      - pose proof (http_created db raw b a) as Hc.
        rewrite H in Hc. simpl in Hc.
        destruct (Hc eq_refl) as [Hn [_ Hin]]. repeat split; try assumption.
        unfold main.create_account in H.
        destruct (schemas.AccountCreate_validate raw b) as [data |] eqn:Ev;
          [| discriminate].
        apply (validated_owner_name _ _ _ Ev).
      - pose proof (tool_created db raw b a) as Hc.
        rewrite H in Hc. simpl in Hc.
        destruct (Hc eq_refl) as [Hn [_ Hin]]. repeat split; try assumption.
        unfold mcp_server.call_tool in H. simpl in H.
        destruct (strip raw); [discriminate H | discriminate]. }
    destruct Ha as [Hn [Hin Hne]].
    assert (Hn2 : owner_name a = strip raw2)
      by (unfold raw2; rewrite strip_padding; assumption).
    split.
    + apply (http_refuses_duplicate db1 a); assumption.
    + destruct (tool_refuses_duplicate db1 a raw2 b2 Hin Hn2) as [H1 H2].
      split; [exact H1|]. apply H2. rewrite <- Hn2, Hn. exact Hne.
Qed.

End OwnerNames.

(** ** The two front-ends side by side *)

Section FrontEnds.
Context {F : Type} {num : Number F} {order : TotalOrder F}.

Lemma strip_nonempty_length (raw : str) :
  strip raw <> [] -> (1 <=? List.length raw)%nat = true.
Proof.
  destruct raw as [| c r]; [intros H; exfalso; apply H; reflexivity|].
  reflexivity.
Qed.

Lemma AccountCreate_validate_short (raw : str) (b : option F) :
  (List.length raw <= 255)%nat ->
  schemas.AccountCreate_validate raw b
  = match strip raw with
    | [] => None
    | c :: r =>
        match b with
        | None =>
            Some {| schemas.data_owner_name := c :: r;
                    schemas.data_initial_balance := fzero |}
        | Some x =>
            if fle fzero x
            then Some {| schemas.data_owner_name := c :: r;
                         schemas.data_initial_balance := x |}
            else None
        end
    end.
Proof.
  intros Hlen. apply Nat.leb_le in Hlen.
  unfold schemas.AccountCreate_validate, schemas.validate_owner_name.
  rewrite Hlen, andb_true_r.
  destruct (strip raw) as [| c r] eqn:Es.
  - destruct (1 <=? List.length raw)%nat; reflexivity.
  - rewrite (strip_nonempty_length raw) by (rewrite Es; discriminate).
    reflexivity.
Qed.

Lemma tool_create_agrees (db : Session F) (raw : str) (b : option F) :
  (List.length raw <= 255)%nat ->
  fst (mcp_server.call_tool db "create_account" (create_args raw b))
  = fst (main.create_account db raw b)
  /\ same_outcome (snd (main.create_account db raw b))
       (snd (mcp_server.call_tool db "create_account" (create_args raw b))).
Proof.
  intros Hlen. unfold main.create_account.
  rewrite (AccountCreate_validate_short raw b Hlen).
  unfold mcp_server.call_tool. simpl.
  destruct (strip raw) as [| c r] eqn:Es; [simpl; auto|].
  destruct b as [x |].
  - rewrite fle_flt. destruct (flt x fzero); simpl; [auto|].
    destruct (crud.get_account_by_owner_name db (c :: r)); simpl; [auto|].
    destruct (crud.create_account db (c :: r) x). simpl. auto.
  - rewrite flt_irrefl. simpl.
    destruct (crud.get_account_by_owner_name db (c :: r)); simpl; [auto|].
    destruct (crud.create_account db (c :: r) fzero). simpl. auto.
Qed.

Lemma tool_deposit_agrees (db : Session F) (i : Z) (amt : F) :
  fst (mcp_server.call_tool db "deposit" (amount_args i amt))
  = fst (main.deposit db i amt)
  /\ same_outcome (snd (main.deposit db i amt))
       (snd (mcp_server.call_tool db "deposit" (amount_args i amt))).
Proof.
  unfold mcp_server.call_tool, main.deposit, schemas.DepositRequest_validate.
  simpl. rewrite fle_flt.
  destruct (flt fzero amt); simpl; [| auto].
  destruct (crud.get_account_by_id db i) as [account |]; simpl; [| auto].
  destruct (crud.deposit db account amt). simpl. auto.
Qed.

Lemma tool_withdraw_agrees (db : Session F) (i : Z) (amt : F) :
  fst (mcp_server.call_tool db "withdraw" (amount_args i amt))
  = fst (main.withdraw db i amt)
  /\ same_outcome (snd (main.withdraw db i amt))
       (snd (mcp_server.call_tool db "withdraw" (amount_args i amt))).
Proof.
  unfold mcp_server.call_tool, main.withdraw, schemas.WithdrawRequest_validate.
  simpl. rewrite fle_flt.
  destruct (flt fzero amt); simpl; [| auto].
  destruct (crud.get_account_by_id db i) as [account |]; simpl; [| auto].
  destruct (flt (balance account) amt) eqn:Eb; simpl; [auto|].
  destruct (withdraw_some db account amt Eb) as [db' [account' ->]].
  simpl. auto.
Qed.

(** C5, as the code has it.  Under a total order on amounts, the tool
    front-end answers a [create_account] (owner name of at most 255 code
    points, the bound only HTTP has), a [deposit] and a [withdraw] call as
    the HTTP front-end answers the same request: same session afterwards,
    same outcome, so the same checks of the owner name, of the initial
    balance and of the amount.  A [get_transactions] call is not validated:
    whatever the limit sent, an existing account gets the page the core
    returns for that limit (50 when absent) at offset 0. *)
Theorem tool_validation_matches_http_except_paging :
  forall (db : Session F),
    (forall (raw : str) (b : option F),
       (List.length raw <= 255)%nat ->
       fst (mcp_server.call_tool db "create_account" (create_args raw b))
       = fst (main.create_account db raw b)
       /\ same_outcome (snd (main.create_account db raw b))
            (snd (mcp_server.call_tool db "create_account"
                    (create_args raw b))))
    /\ (forall (i : Z) (amt : F),
          fst (mcp_server.call_tool db "deposit" (amount_args i amt))
          = fst (main.deposit db i amt)
          /\ same_outcome (snd (main.deposit db i amt))
               (snd (mcp_server.call_tool db "deposit" (amount_args i amt))))
    /\ (forall (i : Z) (amt : F),
          fst (mcp_server.call_tool db "withdraw" (amount_args i amt))
          = fst (main.withdraw db i amt)
          /\ same_outcome (snd (main.withdraw db i amt))
               (snd (mcp_server.call_tool db "withdraw" (amount_args i amt))))
    /\ (forall (i : Z) (limit : option Z) (a : Account F),
          crud.get_account_by_id db i = Some a ->
          mcp_server.call_tool db "get_transactions" (page_args i limit)
          = (db, mcp_server.TransactionList i
                   (crud.get_transaction_count_by_account db i)
                   (crud.get_transactions_by_account db i
                      (match limit with Some n => n | None => 50 end) 0))).
Proof.
  intros db. split; [| split; [| split]].
  - apply tool_create_agrees.
  - apply tool_deposit_agrees.
  - apply tool_withdraw_agrees.
  - intros i limit a Ha. unfold mcp_server.call_tool. simpl.
    rewrite Ha. reflexivity.
Qed.

End FrontEnds.

(** * The theorems at work, and where the specification departs from the code *)

(** The scenario of the specification, run on the model: balance 0, ledger
    DEPOSIT 100, DEPOSIT 50, WITHDRAWAL 150, three transactions counted. *)
Example alice_scenario :
  accounts alice_exact = [alice_settled]
  /\ map (fun t => (type t, amount t)) (transactions alice_exact)
     = [(DEPOSIT, 100); (DEPOSIT, 50); (WITHDRAWAL, 150)]
  /\ crud.get_transaction_count_by_account alice_exact 1 = 3%nat
  /\ map tx_id (crud.get_transactions_by_account alice_exact 1 2 0) = [3; 2].
Proof.
  repeat split.
Qed.

(** Binary64 is not exact: after opening with 1e16 and withdrawing 1 twice
    the balance is still 1e16, while the ledger gives 1e16 - 2. *)
Remark binary64_balance_drifts_from_ledger :
  let db := run (empty ticking) eve_requests in
  map balance (accounts db) = [1e16%float]
  /\ ledger_balance db 1 = 9999999999999998%float.
Proof.
  split; reflexivity.
Qed.

(** Binary64 is not totally ordered: for a NaN amount [amount > 0] is
    false, so HTTP refuses it, and [amount <= 0] is false too, so the tool
    front-end deposits it. *)
Remark binary64_nan_amount_passes_the_tool_check :
  main.deposit alice_opened 1 PrimFloat.nan
  = (alice_opened, main.HTTP_422_UNPROCESSABLE)
  /\ exists db',
       mcp_server.call_tool alice_opened "deposit"
         (amount_args 1 PrimFloat.nan)
       = (db', mcp_server.Message "Deposit successful" 1 PrimFloat.nan).
Proof.
  split; [reflexivity|]. eexists. reflexivity.
Qed.

(** C7 at work: Alice, with 100, deposits 50. *)
Lemma deposit_adds_amount_and_records_it_witness :
  crud.get_account_by_id alice_opened (id alice_account) = Some alice_account
  /\ balance (snd (crud.deposit alice_opened alice_account 50%float))
     = 150%float
  /\ crud.get_account_by_id
       (fst (crud.deposit alice_opened alice_account 50%float)) 1
     = Some (crud.set_balance alice_account 150%float).
Proof.
  assert (H : crud.get_account_by_id alice_opened (id alice_account)
              = Some alice_account) by reflexivity.
  split; [exact H|].
  destruct (deposit_adds_amount_and_records_it
              alice_opened alice_account 50%float H) as [_ [Hb [Hrow _]]].
  split; [exact Hb | exact Hrow].
Defined.

(** C2 at work: Alice, with 100, is refused 200 and withdraws 100. *)
Lemma withdraw_guarded_by_balance_witness :
  crud.get_account_by_id alice_opened (id alice_account) = Some alice_account
  /\ crud.withdraw alice_opened alice_account 200%float = (alice_opened, None)
  /\ exists db' account' t,
       crud.withdraw alice_opened alice_account 100%float
       = (db', Some account')
       /\ balance account' = 0%float
       /\ transactions db' = transactions alice_opened ++ [t]
       /\ type t = WITHDRAWAL /\ amount t = 100%float.
Proof.
  assert (H : crud.get_account_by_id alice_opened (id alice_account)
              = Some alice_account) by reflexivity.
  split; [exact H|].
  destruct (withdraw_guarded_by_balance
              alice_opened alice_account 200%float H) as [Hno _].
  destruct (withdraw_guarded_by_balance
              alice_opened alice_account 100%float H) as [_ Hyes].
  split; [apply Hno; reflexivity|].
  destruct (Hyes eq_refl) as [db' [account' [t [Hw [_ [Hb [_ [Ht [_ [Hty Ha]]]]]]]]]].
  exists db', account', t. repeat split; assumption.
Defined.

(** C8 at work: the second page of two of Alice's three transactions. *)
Lemma page_is_newest_first_and_count_is_total_witness :
  0 <= 2 /\ 0 <= 1
  /\ StronglySorted newer_first
       (crud.get_transactions_by_account alice_exact 1 2 1)
  /\ List.length (crud.get_transactions_by_account alice_exact 1 2 1)
     = Nat.min 2 (crud.get_transaction_count_by_account alice_exact 1 - 1).
Proof.
  assert (H2 : 0 <= 2) by lia. assert (H1 : 0 <= 1) by lia.
  split; [exact H2|]. split; [exact H1|].
  destruct (page_is_newest_first_and_count_is_total
              alice_exact 1 2 1 H2 H1) as [_ [_ [_ [_ [Hs [_ Hl]]]]]].
  split; [exact Hs | exact Hl].
Defined.

(** C1 at work: Alice's balance 0 is (100 + 50) - 150. *)
Lemma balance_is_deposits_minus_withdrawals_witness :
  In alice_settled (accounts alice_exact)
  /\ balance alice_settled
     = fsub (total DEPOSIT (crud.by_account 1 (transactions alice_exact)))
            (total WITHDRAWAL (crud.by_account 1 (transactions alice_exact))).
Proof.
  assert (H : In alice_settled (accounts alice_exact))
    by (left; reflexivity).
  split; [exact H|].
  exact (balance_is_deposits_minus_withdrawals
           (exact := Z_exact) (order := Z_order)
           ticking (alice_requests 100 50 200 150) alice_settled H).
Defined.

(** C1 as the specification words it fails: Alice opens with 100; her
    balance is 100, her one DEPOSIT row is 100, and the initial balance plus
    the deposits minus the withdrawals is 200. *)
Lemma initial_balance_is_counted_twice :
  exists a : Account float,
    accounts alice_opened = [a]
    /\ balance a = 100%float
    /\ map (fun t => (type t, amount t))
           (crud.by_account (id a) (transactions alice_opened))
       = [(DEPOSIT, 100%float)]
    /\ spec_balance 100%float alice_opened (id a) = 200%float
    /\ balance a <> spec_balance 100%float alice_opened (id a).
Proof.
  exists alice_account. repeat split. float_neq.
Qed.

(** C3 at work: a second account for Alice, asked with blanks around the
    name, is refused by both front-ends. *)
Lemma front_ends_refuse_duplicate_owner_witness :
  In alice_account (accounts alice_opened)
  /\ owner_name alice_account = strip (lit " Alice ")
  /\ main.create_account alice_opened (lit " Alice ") (Some 5%float)
     = (alice_opened,
        main.HTTP_409_CONFLICT "Account with this owner name already exists")
  /\ mcp_server.call_tool alice_opened "create_account"
       (create_args (lit " Alice ") (Some 5%float))
     = (alice_opened,
        mcp_server.Error "Error: Account with this owner name already exists").
Proof.
  assert (Hin : In alice_account (accounts alice_opened))
    by (left; reflexivity).
  assert (Hn : owner_name alice_account = strip (lit " Alice "))
    by reflexivity.
  split; [exact Hin|]. split; [exact Hn|].
  destruct (front_ends_refuse_duplicate_owner
              alice_opened alice_account (lit " Alice ") (Some 5%float)
              Hin Hn) as [_ [[_ Hhttp] [_ Htool]]].
  split.
  - apply Hhttp. discriminate.
  - apply Htool; [discriminate | reflexivity].
Defined.

(** C3 as the specification words it fails: the core's [create_account],
    called for an owner who has an account, adds a second account row and a
    second transaction row and returns the new account. *)
Lemma core_create_account_does_not_check_owner :
  let result := crud.create_account alice_opened (lit "Alice") 100%float in
  crud.get_account_by_owner_name alice_opened (lit "Alice")
  = Some alice_account
  /\ map owner_name (accounts (fst result)) = [lit "Alice"; lit "Alice"]
  /\ map account_id (transactions (fst result)) = [1; 2]
  /\ id (snd result) = 2.
Proof.
  repeat split.
Qed.

(** C4 as the specification words it fails: the store takes two rows with
    the same owner name. *)
Lemma store_accepts_two_rows_with_one_owner_name :
  let db1 := fst (crud.create_account (empty ticking) (lit "Bob") 0%float) in
  let db2 := fst (crud.create_account db1 (lit "Bob") 0%float) in
  exists a1 a2 : Account float,
    accounts db2 = [a1; a2]
    /\ id a1 <> id a2
    /\ owner_name a1 = owner_name a2
    /\ ~ NoDup (map owner_name (accounts db2)).
Proof.
  cbv zeta. do 2 eexists. split; [reflexivity|]. repeat split.
  - discriminate.
  - intros H. inversion_clear H as [| ? ? Hin _]. apply Hin. left. reflexivity.
Qed.

(** C5 at work: a creation and a refused deposit answered alike, and a
    limit of 1000 served by the tool front-end. *)
Lemma tool_validation_matches_http_except_paging_witness :
  (List.length (lit " Carol ") <= 255)%nat
  /\ crud.get_account_by_id alice_exact 1 = Some alice_settled
  /\ fst (mcp_server.call_tool alice_exact "create_account"
            (create_args (lit " Carol ") (Some 7)))
     = fst (main.create_account alice_exact (lit " Carol ") (Some 7))
  /\ same_outcome (snd (main.deposit alice_exact 1 (-3)))
       (snd (mcp_server.call_tool alice_exact "deposit" (amount_args 1 (-3))))
  /\ mcp_server.call_tool alice_exact "get_transactions"
       (page_args 1 (Some 1000))
     = (alice_exact,
        mcp_server.TransactionList 1
          (crud.get_transaction_count_by_account alice_exact 1)
          (crud.get_transactions_by_account alice_exact 1 1000 0)).
Proof.
  assert (Hlen : (List.length (lit " Carol ") <= 255)%nat)
    by (vm_compute; lia).
  assert (Ha : crud.get_account_by_id alice_exact 1 = Some alice_settled)
    by reflexivity.
  split; [exact Hlen|]. split; [exact Ha|].
  destruct (tool_validation_matches_http_except_paging
              (order := Z_order) alice_exact) as [Hc [Hd [_ Hp]]].
  split; [apply (Hc _ _ Hlen)|].
  split; [apply Hd|].
  apply (Hp 1 (Some 1000) alice_settled Ha).
Defined.

(** C5 as the specification words it fails: HTTP refuses a limit of 1000
    and a limit of 0; the tool front-end serves both. *)
Lemma tool_serves_limits_http_refuses :
  main.get_transactions alice_opened 1 (Some 1000) None
  = (alice_opened, main.HTTP_422_UNPROCESSABLE)
  /\ main.get_transactions alice_opened 1 (Some 0) None
     = (alice_opened, main.HTTP_422_UNPROCESSABLE)
  /\ mcp_server.call_tool alice_opened "get_transactions"
       (page_args 1 (Some 1000))
     = (alice_opened,
        mcp_server.TransactionList 1 1 (transactions alice_opened))
  /\ mcp_server.call_tool alice_opened "get_transactions"
       (page_args 1 (Some 0))
     = (alice_opened, mcp_server.TransactionList 1 1 []).
Proof.
  repeat split.
Qed.

(** C9 as the specification words it fails: Eve, at 1e16, deposits 1 over
    HTTP.  The deposit succeeds and its transaction row is inserted, but
    the balance assigned, 1e16 + 1 = 1e16 in binary64, compares equal to the
    one loaded, and no account write is issued. *)
Lemma deposit_that_rounds_away_writes_no_account_row :
  let db' := fst (crud.deposit eve_opened eve_account 1%float) in
  crud.get_account_by_id eve_opened 1 = Some eve_account
  /\ main.deposit eve_opened 1 1%float
     = (db', main.HTTP_200_Message "Deposit successful" 1 1e16%float)
  /\ issued eve_opened db' = [INSERT_transaction 2]
  /\ account_writes (issued eve_opened db') = 0%nat
  /\ account_writes (issued eve_opened db') <> 1%nat.
Proof.
  cbv zeta. repeat split. discriminate.
Qed.

(** * Further properties of the code *)

(** ** [sanitize_input] *)

Lemma replace_char_app (old : N) (new s t : str) :
  replace_char old new (s ++ t) = replace_char old new s ++ replace_char old new t.
Proof.
  apply flat_map_app.
Qed.

Lemma html_escape_app (s t : str) :
  html_escape (s ++ t) = html_escape s ++ html_escape t.
Proof.
  unfold html_escape. rewrite !replace_char_app. reflexivity.
Qed.

(** The image of one code point, case by case. *)
Lemma escape_char_cases (c : N) :
  (c = 38%N /\ escape_char c = [38; 97; 109; 112; 59]%N)
  \/ (c = 60%N /\ escape_char c = [38; 108; 116; 59]%N)
  \/ (c = 62%N /\ escape_char c = [38; 103; 116; 59]%N)
  \/ (c = 34%N /\ escape_char c = [38; 113; 117; 111; 116; 59]%N)
  \/ (c = 39%N /\ escape_char c = [38; 35; 120; 50; 55; 59]%N)
  \/ ((c <> 38 /\ c <> 60 /\ c <> 62 /\ c <> 34 /\ c <> 39)%N
      /\ escape_char c = [c]).
Proof.
  unfold escape_char.
  destruct (c =? 38)%N eqn:E1;
    [apply N.eqb_eq in E1; subst; left; split; reflexivity | right].
  destruct (c =? 60)%N eqn:E2;
    [apply N.eqb_eq in E2; subst; left; split; reflexivity | right].
  destruct (c =? 62)%N eqn:E3;
    [apply N.eqb_eq in E3; subst; left; split; reflexivity | right].
  destruct (c =? 34)%N eqn:E4;
    [apply N.eqb_eq in E4; subst; left; split; reflexivity | right].
  destruct (c =? 39)%N eqn:E5;
    [apply N.eqb_eq in E5; subst; left; split; reflexivity | right].
  apply N.eqb_neq in E1, E2, E3, E4, E5. repeat split; assumption.
Qed.

(** The five replacements in a row amount to one pass over the text. *)
Lemma html_escape_one_pass (s : str) : html_escape s = flat_map escape_char s.
Proof.
  induction s as [| c s IH]; [reflexivity|].
  change (c :: s) with ([c] ++ s). rewrite html_escape_app, IH. simpl.
  f_equal.
  destruct (escape_char_cases c)
    as [[-> E] | [[-> E] | [[-> E] | [[-> E] | [[-> E] | [Hc E]]]]]];
    rewrite E; try reflexivity.
  destruct Hc as [H1 [H2 [H3 [H4 H5]]]].
  apply N.eqb_neq in H1, H2, H3, H4, H5.
  unfold html_escape, replace_char. simpl.
  rewrite H1. simpl. rewrite H2. simpl. rewrite H3. simpl.
  rewrite H4. simpl. rewrite H5. reflexivity.
Qed.

(** X1.  Whatever the input, the text [sanitize_input] returns holds none of
    the code points [<], [>], double quote, single quote; the result for
    [None] is the empty text. *)
Theorem sanitize_input_leaves_no_markup :
  forall value : option str,
    Forall (fun c => markup c = false) (sanitize_input value)
    /\ sanitize_input None = [].
Proof.
  intros value. split; [| reflexivity].
  destruct value as [s |]; [| constructor]. simpl.
  rewrite html_escape_one_pass.
  induction s as [| c s IH]; simpl; [constructor|].
  apply Forall_app. split; [| exact IH].
  destruct (escape_char_cases c)
    as [[-> E] | [[-> E] | [[-> E] | [[-> E] | [[-> E] | [Hc E]]]]]];
    rewrite E; repeat constructor.
  destruct Hc as [_ [H2 [H3 [H4 H5]]]].
  apply N.eqb_neq in H2, H3, H4, H5.
  unfold markup. rewrite H2, H3, H4, H5. reflexivity.
Qed.

Lemma escape_char_prefix_free (c d : N) (x y : str) :
  escape_char c ++ x = escape_char d ++ y -> c = d /\ x = y.
Proof.
  destruct (escape_char_cases c)
    as [[-> E] | [[-> E] | [[-> E] | [[-> E] | [[-> E] | [Hc E]]]]]];
    rewrite E;
    (destruct (escape_char_cases d)
       as [[-> E'] | [[-> E'] | [[-> E'] | [[-> E'] | [[-> E'] | [Hd E']]]]]];
     rewrite E'; simpl; intros H;
     try discriminate H;
     try (injection H as H; subst; tauto)).
  all: try (injection H; intros; subst; tauto).
Qed.

(** X2.  [sanitize_input] loses nothing: two different texts are written
    differently. *)
Theorem sanitize_input_is_injective :
  forall s t : str,
    sanitize_input (Some s) = sanitize_input (Some t) -> s = t.
Proof.
  simpl. intros s t. rewrite !html_escape_one_pass. revert t.
  induction s as [| c s IH]; intros [| d t]; simpl; intros H.
  - reflexivity.
  - exfalso.
    destruct (escape_char_cases d)
      as [[_ E] | [[_ E] | [[_ E] | [[_ E] | [[_ E] | [_ E]]]]]];
      rewrite E in H; discriminate H.
  - exfalso.
    destruct (escape_char_cases c)
      as [[_ E] | [[_ E] | [[_ E] | [[_ E] | [[_ E] | [_ E]]]]]];
      rewrite E in H; discriminate H.
  - apply escape_char_prefix_free in H. destruct H as [-> H].
    f_equal. apply IH, H.
Qed.

(** X3.  [sanitize_input] returns a text as it is exactly when the text
    holds none of [&], [<], [>], double quote, single quote; otherwise the
    result is longer. *)
Theorem sanitize_input_fixes_plain_text_only :
  forall s : str,
    (List.length s <= List.length (sanitize_input (Some s)))%nat
    /\ (sanitize_input (Some s) = s
        <-> Forall (fun c => markup c = false /\ c <> 38%N) s).
Proof.
  intros s. simpl. rewrite html_escape_one_pass.
  assert (Hlen : forall u : str,
             (List.length u <= List.length (flat_map escape_char u))%nat).
  { induction u as [| c u IH]; simpl; [lia|].
    rewrite length_app.
    destruct (escape_char_cases c)
      as [[_ E] | [[_ E] | [[_ E] | [[_ E] | [[_ E] | [_ E]]]]]];
      rewrite E; simpl; lia. }
  split; [apply Hlen|].
  induction s as [| c s IH]; simpl.
  - split; [constructor | reflexivity].
  - pose proof (Hlen s) as Hs.
    destruct (escape_char_cases c)
      as [[-> E] | [[-> E] | [[-> E] | [[-> E] | [[-> E] | [Hc E]]]]]];
      rewrite E; simpl.
    6: { destruct Hc as [H1 [H2 [H3 [H4 H5]]]]. split.
         - intros H. injection H as H. constructor; [| apply IH, H].
           split; [| exact H1].
           apply N.eqb_neq in H2, H3, H4, H5.
           unfold markup. rewrite H2, H3, H4, H5. reflexivity.
         - intros H. inversion_clear H as [| ? ? _ Hrest].
           f_equal. apply IH, Hrest. }
    all: split;
      [ intros H; apply (f_equal (@List.length N)) in H; simpl in H; lia
      | intros H; inversion_clear H as [| ? ? [Hm Hn] _];
        try (exfalso; apply Hn; reflexivity); discriminate Hm ].
Qed.

(** ** [verify_api_key] *)

Lemma isascii_str_eqb (a b : str) :
  str_eqb a b = true -> isascii a = isascii b.
Proof.
  intros H. apply str_eqb_eq in H. subst. reflexivity.
Qed.

(** X4.  [verify_api_key] lets a request through exactly when its header is
    the configured key (which must be ASCII), and then returns that key.  A
    missing header is answered 401, an ASCII header other than an ASCII key
    403, and a header that is not ASCII raises instead of being answered. *)
Theorem verify_api_key_accepts_only_the_key :
  forall (API_KEY : str) (header : option str),
    (forall k, verify_api_key API_KEY header = Verified k
               <-> header = Some API_KEY /\ k = API_KEY
                   /\ isascii API_KEY = true)
    /\ verify_api_key API_KEY None = HTTP_401_UNAUTHORIZED "API key is missing"
    /\ (forall h, isascii h = false ->
                  verify_api_key API_KEY (Some h) = Raised_TypeError)
    /\ (forall h, isascii h = true -> isascii API_KEY = true -> h <> API_KEY ->
                  verify_api_key API_KEY (Some h)
                  = HTTP_403_FORBIDDEN "Invalid API key").
Proof.
  intros API_KEY header. split; [| split; [| split]].
  - intros k. unfold verify_api_key, compare_digest. split.
    + destruct header as [h |]; [| discriminate].
      destruct (isascii h && isascii API_KEY) eqn:Ea; [| discriminate].
      destruct (str_eqb h API_KEY) eqn:Ee; [| discriminate].
      intros H. injection H as <-. apply str_eqb_eq in Ee. subst h.
      apply andb_true_iff in Ea. tauto.
    + intros [-> [-> Ha]]. rewrite Ha, str_eqb_refl. reflexivity.
  - reflexivity.
  - intros h Hh. unfold verify_api_key, compare_digest. rewrite Hh. reflexivity.
  - intros h Hh Hk Hne. unfold verify_api_key, compare_digest.
    rewrite Hh, Hk. simpl.
    destruct (str_eqb h API_KEY) eqn:Ee; [| reflexivity].
    apply str_eqb_eq in Ee. contradiction.
Qed.

(** ** [list_tools] and [call_tool] *)

Section ToolFacts.
Context {F : Type} {num : Number F}.

Ltac tool_cases :=
  repeat match goal with
         | |- context [match ?x with _ => _ end] => destruct x eqn:?
         end.

(** X5.  [call_tool] knows exactly the tools that [list_tools] announces: a
    listed name is never answered as unknown, and any other name is answered
    as unknown with the session left as it was. *)
Theorem call_tool_knows_exactly_the_listed_tools :
  forall (db : Session F) (name : string)
         (arguments : mcp_server.ToolArguments F),
    (In name (map mcp_types.tool_name list_tools) ->
     snd (mcp_server.call_tool db name arguments)
     <> mcp_server.Unknown_tool name)
    /\ (~ In name (map mcp_types.tool_name list_tools) ->
        mcp_server.call_tool db name arguments
        = (db, mcp_server.Unknown_tool name)).
Proof.
  intros db name arguments. split.
  - simpl. intros [<- | [<- | [<- | [<- | [<- | [<- | []]]]]]];
      unfold mcp_server.call_tool, mcp_server.account_of; simpl;
      tool_cases; simpl; discriminate.
  - intros Hn. unfold mcp_server.call_tool.
    destruct (name =? "create_account")%string eqn:E1;
      [apply String.eqb_eq in E1; subst name; exfalso; apply Hn; simpl; auto 10|].
    destruct (name =? "deposit")%string eqn:E2;
      [apply String.eqb_eq in E2; subst name; exfalso; apply Hn; simpl; auto 10|].
    destruct (name =? "withdraw")%string eqn:E3;
      [apply String.eqb_eq in E3; subst name; exfalso; apply Hn; simpl; auto 10|].
    destruct (name =? "get_balance")%string eqn:E4;
      [apply String.eqb_eq in E4; subst name; exfalso; apply Hn; simpl; auto 10|].
    destruct (name =? "get_transactions")%string eqn:E5;
      [apply String.eqb_eq in E5; subst name; exfalso; apply Hn; simpl; auto 10|].
    destruct (name =? "list_accounts")%string eqn:E6;
      [apply String.eqb_eq in E6; subst name; exfalso; apply Hn; simpl; auto 10|].
    reflexivity.
Qed.

(** X6.  A call that lacks an argument its tool's schema lists under
    [required] is answered with an error text, and nothing is written. *)
Theorem call_without_required_argument_is_refused :
  forall (db : Session F) (tool : mcp_types.Tool) (key : string)
         (arguments : mcp_server.ToolArguments F),
    In tool list_tools ->
    In key (mcp_types.tool_required tool) ->
    has_key arguments key = false ->
    exists text,
      mcp_server.call_tool db (mcp_types.tool_name tool) arguments
      = (db, mcp_server.Error text).
Proof.
  intros db tool key [o b i a l] Ht Hk Hmiss.
  simpl in Ht.
  destruct Ht as [<- | [<- | [<- | [<- | [<- | [<- | []]]]]]]; simpl in Hk;
    repeat (destruct Hk as [<- | Hk]); try contradiction;
    unfold has_key in Hmiss; simpl in Hmiss;
    match type of Hmiss with
    | match ?x with _ => _ end = false => destruct x; [discriminate Hmiss|]
    end;
    unfold mcp_server.call_tool, mcp_server.account_of; simpl;
    tool_cases; try discriminate; eauto.
Qed.

(** X7.  The defaults that the schemas of [list_tools] declare are the ones
    [call_tool] applies: a [create_account] call without [initial_balance]
    is served as one with 0, and a [get_transactions] call without [limit]
    as one with 50. *)
Theorem omitted_argument_means_schema_default :
  forall (db : Session F) (o : option str) (i : option Z) (a : option F)
         (l : option Z) (b : option F),
    schema_default "create_account" "initial_balance" = Some 0
    /\ schema_default "get_transactions" "limit" = Some 50
    /\ mcp_server.call_tool db "create_account"
         {| mcp_server.arg_owner_name := o;
            mcp_server.arg_initial_balance := None;
            mcp_server.arg_account_id := i;
            mcp_server.arg_amount := a;
            mcp_server.arg_limit := l |}
       = mcp_server.call_tool db "create_account"
           {| mcp_server.arg_owner_name := o;
              mcp_server.arg_initial_balance := Some fzero;
              mcp_server.arg_account_id := i;
              mcp_server.arg_amount := a;
              mcp_server.arg_limit := l |}
    /\ mcp_server.call_tool db "get_transactions"
         {| mcp_server.arg_owner_name := o;
            mcp_server.arg_initial_balance := b;
            mcp_server.arg_account_id := i;
            mcp_server.arg_amount := a;
            mcp_server.arg_limit := None |}
       = mcp_server.call_tool db "get_transactions"
           {| mcp_server.arg_owner_name := o;
              mcp_server.arg_initial_balance := b;
              mcp_server.arg_account_id := i;
              mcp_server.arg_amount := a;
              mcp_server.arg_limit := Some 50 |}.
Proof.
  intros. repeat split.
Qed.

End ToolFacts.

(** ** The handlers, one request at a time *)

Section HandlerFacts.
Context {F : Type} {num : Number F}.

Ltac handler_cases :=
  repeat match goal with
         | |- context [match ?x with _ => _ end] => destruct x eqn:?
         end.

(** X8.  Only a success writes.  An HTTP request that is not answered 201
    or with a success message, and a tool call whose result is neither a
    created account nor a success message, leave the session as it was; the
    balance and history handlers never write. *)
Theorem only_a_success_writes :
  forall (db : Session F),
    (forall raw b,
       (exists a, snd (main.create_account db raw b) = main.HTTP_201_CREATED a)
       \/ fst (main.create_account db raw b) = db)
    /\ (forall i amt,
          (exists m j nb,
             snd (main.deposit db i amt) = main.HTTP_200_Message m j nb)
          \/ fst (main.deposit db i amt) = db)
    /\ (forall i amt,
          (exists m j nb,
             snd (main.withdraw db i amt) = main.HTTP_200_Message m j nb)
          \/ fst (main.withdraw db i amt) = db)
    /\ (forall i, fst (main.get_balance db i) = db)
    /\ (forall i l o, fst (main.get_transactions db i l o) = db)
    /\ (forall name arguments,
          (exists a, snd (mcp_server.call_tool db name arguments)
                     = mcp_server.Account_created a)
          \/ (exists m j nb, snd (mcp_server.call_tool db name arguments)
                             = mcp_server.Message m j nb)
          \/ fst (mcp_server.call_tool db name arguments) = db).
Proof.
  intros db. repeat split.
  - intros raw b. unfold main.create_account.
    handler_cases; simpl; eauto.
  - intros i amt. unfold main.deposit. handler_cases; simpl; eauto.
  - intros i amt. unfold main.withdraw.
    destruct (schemas.WithdrawRequest_validate amt) as [amt' |]; [| auto].
    destruct (crud.get_account_by_id db i) as [account |]; [| auto].
    destruct (flt (balance account) amt') eqn:Eb; [auto|].
    destruct (withdraw_some db account amt' Eb) as [db' [account' ->]].
    simpl. eauto.
  - intros i. unfold main.get_balance. handler_cases; reflexivity.
  - intros i l o. unfold main.get_transactions. handler_cases; reflexivity.
  - intros name arguments.
    unfold mcp_server.call_tool, mcp_server.account_of.
    destruct (name =? "create_account")%string;
      [handler_cases; simpl; eauto 8|].
    destruct (name =? "deposit")%string;
      [handler_cases; simpl; eauto 8|].
    destruct (name =? "withdraw")%string.
    { destruct (mcp_server.arg_amount arguments) as [amt |]; [| auto].
      destruct (fle amt fzero); [auto|].
      destruct (mcp_server.arg_account_id arguments) as [i |]; [| auto].
      destruct (crud.get_account_by_id db i) as [account |]; [| auto].
      destruct (flt (balance account) amt) eqn:Eb; [auto|].
      destruct (withdraw_some db account amt Eb) as [db' [account' ->]].
      simpl. eauto 8. }
    handler_cases; simpl; auto.
Qed.

(** X9.  The refusal of [crud.withdraw] is never what a front-end gets
    from it.  For an account of the session and an amount that passed
    validation, each front-end compares the balance with the amount itself:
    above the balance it answers "insufficient funds" with nothing written
    and the core is not called; otherwise the core is called, returns an
    account and not [None], and the answer is the success message with that
    account's id and balance. *)
Theorem front_ends_check_funds_before_the_core :
  forall (db : Session F) (i : Z) (amt : F) (account : Account F),
    crud.get_account_by_id db i = Some account ->
    (flt fzero amt = true ->
     if flt (balance account) amt
     then main.withdraw db i amt
          = (db, main.HTTP_400_BAD_REQUEST "Insufficient funds")
     else exists db' account',
            crud.withdraw db account amt = (db', Some account')
            /\ main.withdraw db i amt
               = (db', main.HTTP_200_Message "Withdrawal successful"
                         (id account') (balance account')))
    /\ (fle amt fzero = false ->
        if flt (balance account) amt
        then mcp_server.call_tool db "withdraw" (amount_args i amt)
             = (db, mcp_server.Error "Error: Insufficient funds")
        else exists db' account',
               crud.withdraw db account amt = (db', Some account')
               /\ mcp_server.call_tool db "withdraw" (amount_args i amt)
                  = (db', mcp_server.Message "Withdrawal successful"
                            (id account') (balance account'))).
Proof.
  intros db i amt account Ha. split.
  - intros Hamt. unfold main.withdraw, schemas.WithdrawRequest_validate.
    rewrite Hamt, Ha.
    destruct (flt (balance account) amt) eqn:Eb; [reflexivity|].
    destruct (withdraw_some db account amt Eb) as [db' [account' Hw]].
    exists db', account'. rewrite Hw. split; reflexivity.
  - intros Hamt. unfold mcp_server.call_tool. simpl. rewrite Hamt, Ha.
    destruct (flt (balance account) amt) eqn:Eb; [reflexivity|].
    destruct (withdraw_some db account amt Eb) as [db' [account' Hw]].
    exists db', account'. rewrite Hw. split; reflexivity.
Qed.

Lemma unknown_id_not_found (db : Session F) (i : Z) :
  ~ In i (map id (accounts db)) -> crud.get_account_by_id db i = None.
Proof.
  intros Hn. unfold crud.get_account_by_id.
  destruct (find _ (accounts db)) as [a |] eqn:Ef; [| reflexivity].
  destruct (find_some _ _ Ef) as [Hin Hid]. apply Z.eqb_eq in Hid.
  exfalso. apply Hn. rewrite <- Hid. apply in_map, Hin.
Qed.

(** X10.  An account id that no row bears is answered "not found" by every
    operation that takes an id, through both front-ends, once the other
    arguments pass validation; nothing is written. *)
Theorem unknown_account_is_not_found :
  forall (db : Session F) (i : Z),
    ~ In i (map id (accounts db)) ->
    main.get_balance db i = (db, main.HTTP_404_NOT_FOUND "Account not found")
    /\ (forall l o l' o',
          main.Query_limit l = Some l' -> main.Query_offset o = Some o' ->
          main.get_transactions db i l o
          = (db, main.HTTP_404_NOT_FOUND "Account not found"))
    /\ (forall amt,
          flt fzero amt = true ->
          main.deposit db i amt
          = (db, main.HTTP_404_NOT_FOUND "Account not found")
          /\ main.withdraw db i amt
             = (db, main.HTTP_404_NOT_FOUND "Account not found"))
    /\ (forall amt,
          fle amt fzero = false ->
          mcp_server.call_tool db "deposit" (amount_args i amt)
          = (db, mcp_server.Error "Error: Account not found")
          /\ mcp_server.call_tool db "withdraw" (amount_args i amt)
             = (db, mcp_server.Error "Error: Account not found"))
    /\ (forall l,
          mcp_server.call_tool db "get_balance" (page_args i l)
          = (db, mcp_server.Error "Error: Account not found")
          /\ mcp_server.call_tool db "get_transactions" (page_args i l)
             = (db, mcp_server.Error "Error: Account not found")).
Proof.
  intros db i Hn. pose proof (unknown_id_not_found db i Hn) as Hnone.
  repeat split.
  - unfold main.get_balance. rewrite Hnone. reflexivity.
  - intros l o l' o' Hl Ho. unfold main.get_transactions.
    rewrite Hl, Ho, Hnone. reflexivity.
  - unfold main.deposit, schemas.DepositRequest_validate.
    rewrite H, Hnone. reflexivity.
  - unfold main.withdraw, schemas.WithdrawRequest_validate.
    rewrite H, Hnone. reflexivity.
  - unfold mcp_server.call_tool. simpl. rewrite H, Hnone. reflexivity.
  - unfold mcp_server.call_tool. simpl. rewrite H, Hnone. reflexivity.
  - unfold mcp_server.call_tool. simpl. rewrite Hnone. reflexivity.
  - unfold mcp_server.call_tool. simpl. rewrite Hnone. reflexivity.
Qed.

Lemma order_by_length (rows : list (Transaction F)) :
  List.length (crud.order_by_timestamp_desc rows) = List.length rows.
Proof.
  apply Permutation_length, order_by_timestamp_desc_perm.
Qed.

(** X11.  A page of history served over HTTP never has more than 100 rows,
    nor more rows than the total it reports, and the total is the number of
    transactions of the account; a page served by the tool front-end to a
    call without [limit] never has more than 50 rows. *)
Theorem history_pages_are_bounded :
  forall (db : Session F) (i : Z),
    (forall l o db' j rows n,
       main.get_transactions db i l o
       = (db', main.HTTP_200_TransactionList j rows n) ->
       db' = db /\ j = i
       /\ (List.length rows <= 100)%nat
       /\ (List.length rows <= n)%nat
       /\ n = List.length (crud.by_account i (transactions db)))
    /\ (forall db' j rows n,
          mcp_server.call_tool db "get_transactions" (page_args i None)
          = (db', mcp_server.TransactionList j n rows) ->
          db' = db /\ j = i
          /\ (List.length rows <= 50)%nat
          /\ (List.length rows <= n)%nat
          /\ n = List.length (crud.by_account i (transactions db))).
Proof.
  intros db i. split.
  - intros l o db' j rows n. unfold main.get_transactions.
    destruct (main.Query_limit l) as [l' |] eqn:El; [| discriminate].
    destruct (main.Query_offset o) as [o' |] eqn:Eo;
      [| discriminate].
    destruct (crud.get_account_by_id db i); [| discriminate].
    intros H. injection H as <- <- <- <-.
    assert (Hl : 1 <= l' <= 100).
    { unfold main.Query_limit in El. destruct l as [x |].
      - destruct ((1 <=? x) && (x <=? 100)) eqn:E; [| discriminate].
        injection El as <-. apply andb_true_iff in E.
        destruct E as [E1 E2]. apply Z.leb_le in E1, E2. lia.
      - injection El as <-. lia. }
    unfold crud.get_transactions_by_account, crud.sql_limit, crud.sql_offset,
      crud.get_transaction_count_by_account.
    destruct (l' <? 0) eqn:E; [apply Z.ltb_lt in E; lia|].
    rewrite length_firstn, length_skipn, order_by_length.
    repeat split; lia.
  - intros db' j rows n. unfold mcp_server.call_tool. simpl.
    destruct (crud.get_account_by_id db i); [| discriminate].
    intros H. injection H as <- <- <- <-.
    unfold crud.get_transactions_by_account, crud.sql_limit, crud.sql_offset,
      crud.get_transaction_count_by_account.
    change (50 <? 0) with false. cbv iota.
    rewrite length_firstn, length_skipn, order_by_length.
    change (Z.to_nat 50) with 50%nat.
    repeat split; lia.
Qed.

End HandlerFacts.

(** ** Sessions as they evolve *)

Section Evolution.
Context {F : Type} {num : Number F}.

Lemma run_preserves (P : Session F -> Prop) :
  (forall db db', P db -> effect db db' -> P db') ->
  forall rs db, P db -> P (run db rs).
Proof.
  intros Hstep rs. unfold run.
  induction rs as [| r rs IH]; intros db Hdb; simpl; [exact Hdb|].
  apply IH, (Hstep db); [exact Hdb | apply serve_effect].
Qed.

Lemma map_identity_updated (k : Z) (b : F) (l : list (Account F)) :
  map identity_of
      (map (fun row => if id row =? k then crud.set_balance row b else row) l)
  = map identity_of l.
Proof.
  rewrite map_map. apply map_ext. intros r.
  destruct (id r =? k); reflexivity.
Qed.

Lemma effect_appends (db db' : Session F) :
  effect db db' ->
  exists (nt : list (Transaction F)) (na : list (Z * str * datetime)),
    transactions db' = transactions db ++ nt
    /\ (List.length nt <= 1)%nat
    /\ map identity_of (accounts db') = map identity_of (accounts db) ++ na
    /\ (List.length na <= 1)%nat.
Proof.
  intros He.
  destruct He as [| name b _ _ _ _ | account amt Ha | account amt Ha Hb].
  - exists [], []. rewrite !app_nil_r. simpl. repeat split; lia.
  - destruct (create_account_tables db name b)
      as [_ [Haccs [new [Htx [_ Hlen]]]]].
    exists new, [identity_of (snd (crud.create_account db name b))].
    rewrite Haccs, Htx, map_app. simpl. repeat split; try lia.
    destruct (flt fzero b); [lia | subst new; simpl; lia].
  - destruct (deposit_tables db account amt) as [Haccs [t [Htx _]]].
    exists [t], []. rewrite Haccs, Htx, map_identity_updated, app_nil_r.
    simpl. repeat split; lia.
  - destruct (withdraw_tables db account amt Hb) as [Haccs [t [Htx _]]].
    exists [t], []. rewrite Haccs, Htx, map_identity_updated, app_nil_r.
    simpl. repeat split; lia.
Qed.

(** X12.  Whatever requests are served, from whatever session: the
    transaction rows that were there stay as they are and where they are,
    and at most one row is added per request; the accounts that were there
    stay, in place, with their id, owner name and creation time, and at most
    one account is added per request. *)
Theorem ledger_and_identities_only_grow :
  forall (db : Session F) (rs : list (Request F)),
    exists (nt : list (Transaction F)) (na : list (Z * str * datetime)),
      transactions (run db rs) = transactions db ++ nt
      /\ (List.length nt <= List.length rs)%nat
      /\ map identity_of (accounts (run db rs))
         = map identity_of (accounts db) ++ na
      /\ (List.length na <= List.length rs)%nat.
Proof.
  intros db rs. revert db.
  induction rs as [| r rs IH]; intros db.
  - exists [], []. rewrite !app_nil_r. simpl. repeat split; lia.
  - change (run db (r :: rs)) with (run (serve db r) rs).
    destruct (effect_appends db (serve db r) (serve_effect db r))
      as [nt1 [na1 [Ht1 [Hl1 [Ha1 Hm1]]]]].
    destruct (IH (serve db r)) as [nt2 [na2 [Ht2 [Hl2 [Ha2 Hm2]]]]].
    exists (nt1 ++ nt2), (na1 ++ na2).
    rewrite Ht2, Ht1, Ha2, Ha1, <- !app_assoc, !length_app. simpl.
    repeat split; lia.
Qed.

Lemma effect_tx_ids_distinct (db db' : Session F) :
  NoDup (map tx_id (transactions db)) -> effect db db' ->
  NoDup (map tx_id (transactions db')).
Proof.
  intros Hnd He.
  destruct He as [| name b _ _ _ _ | account amt Ha | account amt Ha Hb].
  - exact Hnd.
  - unfold crud.create_account. destruct (flt fzero b); simpl; [| exact Hnd].
    rewrite map_app. simpl. apply NoDup_snoc; [exact Hnd|].
    apply next_id_fresh.
  - unfold crud.deposit. simpl. rewrite map_app. simpl.
    apply NoDup_snoc; [exact Hnd | apply next_id_fresh].
  - unfold crud.withdraw. rewrite Hb. simpl. rewrite map_app. simpl.
    apply NoDup_snoc; [exact Hnd | apply next_id_fresh].
Qed.

(** X13.  In every session reached from the empty store by requests to the
    two front-ends, each transaction row refers to an account that exists,
    no two accounts have the same id and no two transactions have the same
    id. *)
Theorem transactions_refer_to_accounts :
  forall (clock : nat -> datetime) (rs : list (Request F)),
    let db := run (empty clock) rs in
    (forall t, In t (transactions db) ->
               exists a, In a (accounts db) /\ id a = account_id t)
    /\ NoDup (map id (accounts db))
    /\ NoDup (map tx_id (transactions db)).
Proof.
  intros clock rs. cbv zeta.
  assert (H : keys_consistent (run (empty clock) rs)
              /\ NoDup (map tx_id (transactions (run (empty clock) rs)))).
  { apply (run_preserves
             (fun db => keys_consistent db
                        /\ NoDup (map tx_id (transactions db)))).
    - intros db db' [Hk Hn] He. split.
      + eapply effect_keys_consistent; eassumption.
      + eapply effect_tx_ids_distinct; eassumption.
    - split; [split; constructor | constructor]. }
  destruct H as [[Hids Hfk] Htx]. split; [| split; assumption].
  intros t Ht. rewrite Forall_forall in Hfk.
  specialize (Hfk t Ht). apply in_map_iff in Hfk.
  destruct Hfk as [a [Hid Hin]]. eauto.
Qed.

Lemma http_create_checked (db : Session F) (raw : str) (b : option F) :
  checked_effect db (fst (main.create_account db raw b)).
Proof.
  unfold main.create_account.
  destruct (schemas.AccountCreate_validate raw b) as [data |] eqn:Ev;
    [| apply checked_none].
  destruct (validated_owner_name _ _ _ Ev) as [_ [_ [_ [Hb _]]]].
  destruct (crud.get_account_by_owner_name db (schemas.data_owner_name data));
    [apply checked_none|].
  destruct (crud.create_account db (schemas.data_owner_name data)
              (schemas.data_initial_balance data)) as [db' account] eqn:Ec.
  change db' with (fst (db', account)). rewrite <- Ec.
  apply checked_create, Hb.
Qed.

Lemma deposit_checked (db : Session F) (i : Z) (account : Account F) (amt : F) :
  crud.get_account_by_id db i = Some account ->
  accepted_amount amt ->
  checked_effect db (fst (crud.deposit db account amt)).
Proof.
  intros H Ha. apply checked_deposit; [| exact Ha].
  apply (get_account_by_id_sound db i), H.
Qed.

Lemma withdraw_checked (db : Session F) (i : Z) (account : Account F) (amt : F) :
  crud.get_account_by_id db i = Some account ->
  accepted_amount amt ->
  flt (balance account) amt = false ->
  checked_effect db (fst (crud.withdraw db account amt)).
Proof.
  intros H Ha Hb. apply checked_withdraw; [| exact Ha | exact Hb].
  apply (get_account_by_id_sound db i), H.
Qed.

Lemma call_tool_checked (db : Session F) (name : string)
  (arguments : mcp_server.ToolArguments F) :
  checked_effect db (fst (mcp_server.call_tool db name arguments)).
Proof.
  unfold mcp_server.call_tool.
  destruct (name =? "create_account")%string.
  { destruct (strip _) as [| c r]; [apply checked_none|].
    destruct (flt _ fzero) eqn:Eb; [apply checked_none|].
    destruct (crud.get_account_by_owner_name db (c :: r));
      [apply checked_none|].
    match goal with
    | |- context [crud.create_account db ?n ?b] =>
        destruct (crud.create_account db n b) as [db' account] eqn:Ec;
        change db' with (fst (db', account)); rewrite <- Ec;
        apply checked_create
    end.
    right. right. exact Eb. }
  destruct (name =? "deposit")%string.
  { destruct (mcp_server.arg_amount arguments) as [amt |];
      [| apply checked_none].
    destruct (fle amt fzero) eqn:Ea; [apply checked_none|].
    unfold mcp_server.account_of.
    destruct (mcp_server.arg_account_id arguments) as [i |];
      [| apply checked_none].
    destruct (crud.get_account_by_id db i) as [account |] eqn:Ei;
      [| apply checked_none].
    destruct (crud.deposit db account amt) as [db' account'] eqn:Ec.
    change db' with (fst (db', account')). rewrite <- Ec.
    apply (deposit_checked db i); [exact Ei | right; exact Ea]. }
  destruct (name =? "withdraw")%string.
  { destruct (mcp_server.arg_amount arguments) as [amt |];
      [| apply checked_none].
    destruct (fle amt fzero) eqn:Ea; [apply checked_none|].
    unfold mcp_server.account_of.
    destruct (mcp_server.arg_account_id arguments) as [i |];
      [| apply checked_none].
    destruct (crud.get_account_by_id db i) as [account |] eqn:Ei;
      [| apply checked_none].
    destruct (flt (balance account) amt) eqn:Eb; [apply checked_none|].
    pose proof (withdraw_checked db i account amt Ei (or_intror Ea) Eb) as He.
    destruct (withdraw_some db account amt Eb) as [db' [account' Ew]].
    rewrite Ew in *. exact He. }
  destruct (name =? "get_balance")%string.
  { destruct (mcp_server.account_of _ _); apply checked_none. }
  destruct (name =? "get_transactions")%string.
  { destruct (mcp_server.arg_account_id arguments) as [i |];
      [| apply checked_none].
    destruct (crud.get_account_by_id db i); apply checked_none. }
  destruct (name =? "list_accounts")%string; apply checked_none.
Qed.

Lemma serve_checked (db : Session F) (r : Request F) :
  checked_effect db (serve db r).
Proof.
  destruct r as [raw b | i amt | i amt | i | i l o | name args]; simpl.
  - apply http_create_checked.
  - unfold main.deposit, schemas.DepositRequest_validate.
    destruct (flt fzero amt) eqn:Ea; [| apply checked_none].
    destruct (crud.get_account_by_id db i) as [account |] eqn:Ei;
      [| apply checked_none].
    destruct (crud.deposit db account amt) as [db' account'] eqn:Ec.
    change db' with (fst (db', account')). rewrite <- Ec.
    apply (deposit_checked db i); [exact Ei | left; exact Ea].
  - unfold main.withdraw, schemas.WithdrawRequest_validate.
    destruct (flt fzero amt) eqn:Ea; [| apply checked_none].
    destruct (crud.get_account_by_id db i) as [account |] eqn:Ei;
      [| apply checked_none].
    destruct (flt (balance account) amt) eqn:Eb; [apply checked_none|].
    pose proof (withdraw_checked db i account amt Ei (or_introl Ea) Eb) as He.
    destruct (withdraw_some db account amt Eb) as [db' [account' Ew]].
    rewrite Ew in *. exact He.
  - unfold main.get_balance.
    destruct (crud.get_account_by_id db i); apply checked_none.
  - unfold main.get_transactions.
    destruct (main.Query_limit l); [| apply checked_none].
    destruct (main.Query_offset o); [| apply checked_none].
    destruct (crud.get_account_by_id db i); apply checked_none.
  - apply call_tool_checked.
Qed.

Lemma run_checked (P : Session F -> Prop) :
  (forall db db', P db -> checked_effect db db' -> P db') ->
  forall rs db, P db -> P (run db rs).
Proof.
  intros Hstep rs. unfold run.
  induction rs as [| r rs IH]; intros db Hdb; simpl; [exact Hdb|].
  apply IH, (Hstep db); [exact Hdb | apply serve_checked].
Qed.

End Evolution.

(** ** Signs *)

Lemma Z_ordered : OrderedArith Z.
Proof.
  split; simpl; intros.
  - apply Z.ltb_lt in H, H0. apply Z.ltb_lt. lia.
  - apply Z.ltb_lt in H. apply Z.ltb_lt. lia.
Qed.

Section Signs.
Context {F : Type} {num : Number F} {order : TotalOrder F}.

Lemma accepted_amount_positive (amt : F) :
  accepted_amount amt -> flt fzero amt = true.
Proof.
  intros [H | H]; [exact H|].
  rewrite fle_flt in H. apply negb_false_iff in H. exact H.
Qed.

Lemma checked_amounts_positive (db db' : Session F) :
  Forall (fun t => flt fzero (amount t) = true) (transactions db) ->
  checked_effect db db' ->
  Forall (fun t => flt fzero (amount t) = true) (transactions db').
Proof.
  intros Hall He.
  destruct He as [| name b _ | account amt _ Ha | account amt _ Ha Hb].
  - exact Hall.
  - destruct (create_account_tables db name b)
      as [_ [_ [new [-> [Hnew Hlen]]]]].
    apply Forall_app. split; [exact Hall|].
    destruct (flt fzero b) eqn:Eb; [| subst new; constructor].
    eapply Forall_impl; [| exact Hnew].
    intros t [_ [_ Ht]]. rewrite Ht. exact Eb.
  - destruct (deposit_tables db account amt) as [_ [t [-> [_ [_ Ht]]]]].
    apply Forall_app. split; [exact Hall|]. constructor; [| constructor].
    rewrite Ht. apply accepted_amount_positive, Ha.
  - destruct (withdraw_tables db account amt Hb) as [_ [t [-> [_ [_ Ht]]]]].
    apply Forall_app. split; [exact Hall|]. constructor; [| constructor].
    rewrite Ht. apply accepted_amount_positive, Ha.
Qed.

(** X14.  When amounts are totally ordered, every transaction row in a
    session reached from the empty store by requests to the two front-ends
    has a positive amount: no request persists an amount of zero or less. *)
Theorem persisted_amounts_are_positive :
  forall (clock : nat -> datetime) (rs : list (Request F))
         (t : Transaction F),
    In t (transactions (run (empty clock) rs)) ->
    flt fzero (amount t) = true.
Proof.
  intros clock rs.
  assert (H : Forall (fun t => flt fzero (amount t) = true)
                (transactions (run (empty clock) rs))).
  { apply (run_checked
             (fun db => Forall (fun t => flt fzero (amount t) = true)
                               (transactions db))).
    - apply checked_amounts_positive.
    - constructor. }
  rewrite Forall_forall in H. exact H.
Qed.

Context {exact : ExactArith F} {ordered : OrderedArith F}.

Lemma deposit_keeps_sign (b amt : F) :
  flt b fzero = false -> flt fzero amt = true ->
  flt (fadd b amt) fzero = false.
Proof.
  intros Hb Ha. destruct (flt (fadd b amt) fzero) eqn:E; [| reflexivity].
  pose proof (flt_fadd_mono fzero amt b Ha) as Hm.
  rewrite fadd_zero_l, (fadd_comm amt b) in Hm.
  rewrite (flt_trans _ _ _ Hm E) in Hb. discriminate.
Qed.

Lemma withdraw_keeps_sign (b amt : F) :
  flt b amt = false -> flt (fsub b amt) fzero = false.
Proof.
  intros Hb. destruct (flt (fsub b amt) fzero) eqn:E; [| reflexivity].
  pose proof (flt_fadd_mono _ _ amt E) as Hm.
  rewrite fsub_fadd, fadd_zero_l in Hm. congruence.
Qed.

Lemma accepted_initial_sign (b : F) :
  accepted_initial b -> flt b fzero = false.
Proof.
  intros [-> | [H | H]].
  - apply flt_irrefl.
  - rewrite fle_flt in H. apply negb_true_iff in H. exact H.
  - exact H.
Qed.

Lemma checked_balances_not_negative (db db' : Session F) :
  Forall (fun a => flt (balance a) fzero = false) (accounts db) ->
  checked_effect db db' ->
  Forall (fun a => flt (balance a) fzero = false) (accounts db').
Proof.
  intros Hall He.
  destruct He as [| name b Hb | account amt Hrow Ha | account amt Hrow Ha Hb].
  - exact Hall.
  - destruct (create_account_tables db name b) as [Hacc [-> _]].
    apply Forall_app. split; [exact Hall|]. constructor; [| constructor].
    rewrite Hacc. simpl. apply accepted_initial_sign, Hb.
  - destruct (deposit_tables db account amt) as [-> _].
    destruct (get_account_by_id_sound db _ _ Hrow) as [Hin _].
    rewrite Forall_forall in Hall. pose proof (Hall account Hin) as Hacc.
    apply Forall_map, Forall_forall. intros r Hr.
    destruct (id r =? id account); [| apply Hall, Hr].
    simpl. apply deposit_keeps_sign;
      [exact Hacc | apply accepted_amount_positive, Ha].
  - destruct (withdraw_tables db account amt Hb) as [-> _].
    rewrite Forall_forall in Hall.
    apply Forall_map, Forall_forall. intros r Hr.
    destruct (id r =? id account); [| apply Hall, Hr].
    simpl. apply withdraw_keeps_sign, Hb.
Qed.

(** X15.  In exact, totally ordered arithmetic, no balance is ever
    negative in a session reached from the empty store by requests to the
    two front-ends. *)
Theorem balances_are_never_negative :
  forall (clock : nat -> datetime) (rs : list (Request F)) (a : Account F),
    In a (accounts (run (empty clock) rs)) ->
    flt (balance a) fzero = false.
Proof.
  intros clock rs.
  assert (H : Forall (fun a => flt (balance a) fzero = false)
                (accounts (run (empty clock) rs))).
  { apply (run_checked
             (fun db => Forall (fun a => flt (balance a) fzero = false)
                               (accounts db))).
    - apply checked_balances_not_negative.
    - constructor. }
  rewrite Forall_forall in H. exact H.
Qed.

End Signs.

(** ** Reading after writing *)

Section ReadAfterWrite.
Context {F : Type} {num : Number F}.

Lemma get_balance_ok (db db' : Session F) (i j : Z) (n : str) (b : F) :
  main.get_balance db i = (db', main.HTTP_200_Balance j n b) ->
  exists account,
    crud.get_account_by_id db i = Some account
    /\ id account = i /\ j = i /\ n = owner_name account
    /\ b = balance account.
Proof.
  unfold main.get_balance.
  destruct (crud.get_account_by_id db i) as [account |] eqn:Ea;
    [| discriminate].
  intros H. injection H as _ <- <- <-.
  unfold crud.get_account_by_id in Ea.
  destruct (find_some _ _ Ea) as [_ Hid]. apply Z.eqb_eq in Hid.
  exists account. repeat split; assumption.
Qed.

Lemma get_balance_of_row (db : Session F) (i : Z) (account : Account F) :
  crud.get_account_by_id db i = Some account -> id account = i ->
  main.get_balance db i
  = (db, main.HTTP_200_Balance i (owner_name account) (balance account)).
Proof.
  intros Ha Hid. unfold main.get_balance. rewrite Ha, Hid. reflexivity.
Qed.

Lemma deposit_rows (db : Session F) (account : Account F) (amt : F) (j : Z) :
  crud.get_account_by_id (fst (crud.deposit db account amt)) j
  = if j =? id account
    then option_map
           (fun r => crud.set_balance r (fadd (balance account) amt))
           (crud.get_account_by_id db j)
    else crud.get_account_by_id db j.
Proof.
  unfold crud.deposit, crud.get_account_by_id. simpl.
  destruct (j =? id account) eqn:E.
  - apply Z.eqb_eq in E. subst j. apply find_updated_row.
  - apply Z.eqb_neq in E. apply find_other_row, E.
Qed.

Lemma withdraw_rows (db : Session F) (account : Account F) (amt : F) (j : Z) :
  flt (balance account) amt = false ->
  crud.get_account_by_id (fst (crud.withdraw db account amt)) j
  = if j =? id account
    then option_map
           (fun r => crud.set_balance r (fsub (balance account) amt))
           (crud.get_account_by_id db j)
    else crud.get_account_by_id db j.
Proof.
  intros Hb. unfold crud.withdraw, crud.get_account_by_id. rewrite Hb. simpl.
  destruct (j =? id account) eqn:E.
  - apply Z.eqb_eq in E. subst j. apply find_updated_row.
  - apply Z.eqb_neq in E. apply find_other_row, E.
Qed.

Lemma http_deposit_ok (db : Session F) (i : Z) (account : Account F) (amt : F) :
  crud.get_account_by_id db i = Some account -> id account = i ->
  flt fzero amt = true ->
  main.deposit db i amt
  = (fst (crud.deposit db account amt),
     main.HTTP_200_Message "Deposit successful" i (fadd (balance account) amt)).
Proof.
  intros Ha Hid Hamt. unfold main.deposit, schemas.DepositRequest_validate.
  rewrite Hamt, Ha. unfold crud.deposit. simpl. rewrite Hid. reflexivity.
Qed.

Lemma http_withdraw_ok (db : Session F) (i : Z) (account : Account F) (amt : F) :
  crud.get_account_by_id db i = Some account -> id account = i ->
  flt fzero amt = true -> flt (balance account) amt = false ->
  main.withdraw db i amt
  = (fst (crud.withdraw db account amt),
     main.HTTP_200_Message "Withdrawal successful" i
       (fsub (balance account) amt)).
Proof.
  intros Ha Hid Hamt Hb. unfold main.withdraw, schemas.WithdrawRequest_validate.
  rewrite Hamt, Ha, Hb. unfold crud.withdraw. rewrite Hb. simpl.
  rewrite Hid. reflexivity.
Qed.

(** X16.  Over HTTP, for an account whose balance reads [b] and a positive
    amount: a deposit answers with [b + amount] and the balance then reads
    [b + amount]; a withdrawal of an amount not above [b] answers with
    [b - amount] and the balance then reads [b - amount]; a withdrawal of a
    larger amount is answered 400 and writes nothing.  The balance of every
    other account reads as before. *)
Theorem balance_reads_what_was_written :
  forall (db : Session F) (i : Z) (n : str) (b amt : F),
    main.get_balance db i = (db, main.HTTP_200_Balance i n b) ->
    flt fzero amt = true ->
    (exists db1,
       main.deposit db i amt
       = (db1, main.HTTP_200_Message "Deposit successful" i (fadd b amt))
       /\ main.get_balance db1 i
          = (db1, main.HTTP_200_Balance i n (fadd b amt))
       /\ forall j, j <> i ->
                    snd (main.get_balance db1 j) = snd (main.get_balance db j))
    /\ (flt b amt = false ->
        exists db1,
          main.withdraw db i amt
          = (db1, main.HTTP_200_Message "Withdrawal successful" i (fsub b amt))
          /\ main.get_balance db1 i
             = (db1, main.HTTP_200_Balance i n (fsub b amt))
          /\ forall j, j <> i ->
                       snd (main.get_balance db1 j)
                       = snd (main.get_balance db j))
    /\ (flt b amt = true ->
        main.withdraw db i amt
        = (db, main.HTTP_400_BAD_REQUEST "Insufficient funds")).
Proof.
  intros db i n b amt Hread Hamt.
  destruct (get_balance_ok _ _ _ _ _ _ Hread)
    as [account [Ha [Hid [_ [-> ->]]]]].
  split; [| split].
  - exists (fst (crud.deposit db account amt)). split; [| split].
    + apply http_deposit_ok; assumption.
    + unfold main.get_balance. rewrite deposit_rows, Hid, Z.eqb_refl, Ha.
      simpl. rewrite Hid. reflexivity.
    + intros j Hj. unfold main.get_balance. rewrite deposit_rows, Hid.
      destruct (j =? i) eqn:E; [apply Z.eqb_eq in E; contradiction|].
      destruct (crud.get_account_by_id db j); reflexivity.
  - intros Hb. exists (fst (crud.withdraw db account amt)).
    split; [| split].
    + apply http_withdraw_ok; assumption.
    + unfold main.get_balance.
      rewrite withdraw_rows, Hid, Z.eqb_refl, Ha by exact Hb.
      simpl. rewrite Hid. reflexivity.
    + intros j Hj. unfold main.get_balance.
      rewrite withdraw_rows, Hid by exact Hb.
      destruct (j =? i) eqn:E; [apply Z.eqb_eq in E; contradiction|].
      destruct (crud.get_account_by_id db j); reflexivity.
  - intros Hb. unfold main.withdraw, schemas.WithdrawRequest_validate.
    rewrite Hamt, Ha, Hb. reflexivity.
Qed.

Lemma find_snoc {A : Type} (f : A -> bool) (l : list A) (x : A) :
  find f (l ++ [x])
  = match find f l with
    | Some y => Some y
    | None => if f x then Some x else None
    end.
Proof.
  induction l as [| y l IH]; simpl; [reflexivity|].
  destruct (f y); [reflexivity | exact IH].
Qed.

Lemma create_account_rows (db : Session F) (name : str) (b : F) (j : Z) :
  let a := snd (crud.create_account db name b) in
  ~ In (id a) (map id (accounts db))
  /\ crud.get_account_by_id (fst (crud.create_account db name b)) j
     = if j =? id a then Some a else crud.get_account_by_id db j.
Proof.
  cbv zeta.
  destruct (create_account_tables db name b) as [Hacc [Haccs _]].
  assert (Hfresh : ~ In (id (snd (crud.create_account db name b)))
                     (map id (accounts db)))
    by (rewrite Hacc; apply next_id_fresh).
  split; [exact Hfresh|].
  unfold crud.get_account_by_id. rewrite Haccs, find_snoc.
  rewrite (Z.eqb_sym j).
  destruct (id (snd (crud.create_account db name b)) =? j) eqn:E.
  - apply Z.eqb_eq in E. rewrite <- E.
    fold (crud.get_account_by_id db (id (snd (crud.create_account db name b)))).
    rewrite (unknown_id_not_found _ _ Hfresh). reflexivity.
  - destruct (find _ (accounts db)); reflexivity.
Qed.

(** X17.  An account just created over HTTP can be read back: its id was
    borne by no account before, its balance reads the initial balance sent
    (zero when none was sent) under the stripped owner name, and the balance
    of every other id reads as before. *)
Theorem created_account_reads_back :
  forall (db db1 : Session F) (raw : str) (b : option F) (a : Account F),
    main.create_account db raw b = (db1, main.HTTP_201_CREATED a) ->
    ~ In (id a) (map id (accounts db))
    /\ main.get_balance db1 (id a)
       = (db1, main.HTTP_200_Balance (id a) (strip raw)
                 (match b with Some x => x | None => fzero end))
    /\ forall j, j <> id a ->
                 snd (main.get_balance db1 j) = snd (main.get_balance db j).
Proof.
  intros db db1 raw b a. unfold main.create_account.
  destruct (schemas.AccountCreate_validate raw b) as [data |] eqn:Ev;
    [| discriminate].
  destruct (validated_owner_name _ _ _ Ev) as [Hn [_ [_ [_ Hb]]]].
  destruct (crud.get_account_by_owner_name db (schemas.data_owner_name data));
    [discriminate|].
  pose proof (create_account_rows db (schemas.data_owner_name data)
                (schemas.data_initial_balance data)) as Hrows.
  pose proof (create_account_tables db (schemas.data_owner_name data)
                (schemas.data_initial_balance data)) as [Hacc _].
  destruct (crud.create_account db (schemas.data_owner_name data)
              (schemas.data_initial_balance data)) as [db' a'].
  simpl in Hrows, Hacc. intros H. injection H as <- <-.
  assert (Ho : owner_name a' = strip raw)
    by (rewrite Hacc; simpl; exact Hn).
  assert (Hbal : balance a' = match b with Some x => x | None => fzero end)
    by (rewrite Hacc; simpl; exact Hb).
  split; [apply (Hrows 0) | split].
  - unfold main.get_balance.
    destruct (Hrows (id a')) as [_ ->]. rewrite Z.eqb_refl, Ho, Hbal.
    reflexivity.
  - intros j Hj. unfold main.get_balance.
    destruct (Hrows j) as [_ ->].
    destruct (j =? id a') eqn:E; [apply Z.eqb_eq in E; contradiction|].
    destruct (crud.get_account_by_id db j); reflexivity.
Qed.

End ReadAfterWrite.

(** ** Fixed points of [strip] *)

Lemma trimmed_fixed (s : str) : trimmed s -> strip s = s.
Proof.
  destruct s as [| c r]; [reflexivity|].
  intros [Hc Hl]. unfold strip, rstrip.
  assert (Hls : lstrip (c :: r) = c :: r) by (simpl; rewrite Hc; reflexivity).
  rewrite Hls.
  destruct (rev (c :: r)) as [| h t] eqn:Er.
  - apply (f_equal (@rev N)) in Er. rewrite rev_involutive in Er.
    discriminate Er.
  - assert (Hs : c :: r = rev t ++ [h]).
    { rewrite <- (rev_involutive (c :: r)), Er. reflexivity. }
    rewrite Hs, last_last in Hl. simpl lstrip. rewrite Hl. simpl.
    symmetry. exact Hs.
Qed.

(** X18.  [strip] is idempotent, and the texts it returns unchanged are
    exactly those with no white space at either end; so an owner name that
    passed the validator of [AccountCreate] passes it again, unchanged. *)
Theorem strip_fixes_exactly_the_trimmed :
  forall s : str,
    strip (strip s) = strip s
    /\ (strip s = s <-> trimmed s)
    /\ (forall w, schemas.validate_owner_name s = Some w ->
                  schemas.validate_owner_name w = Some w).
Proof.
  intros s. split; [| split].
  - apply trimmed_fixed, strip_trimmed.
  - split.
    + intros <-. apply strip_trimmed.
    + apply trimmed_fixed.
  - intros w. unfold schemas.validate_owner_name.
    destruct (strip s) as [| c r] eqn:Es; [discriminate|].
    intros H. injection H as <-.
    rewrite (trimmed_fixed (c :: r)); [reflexivity|].
    rewrite <- Es. apply strip_trimmed.
Qed.

(** ** History and the clock *)

Section History.
Context {F : Type} {num : Number F}.

Lemma insert_desc_oldest (t : Transaction F) (m : list (Transaction F)) :
  Forall (fun u => timestamp t < timestamp u) m ->
  crud.insert_desc t m = m ++ [t].
Proof.
  induction 1 as [| u m Hu _ IH]; simpl; [reflexivity|].
  destruct (timestamp u <? timestamp t) eqn:E;
    [apply Z.ltb_lt in E; lia|].
  rewrite IH. reflexivity.
Qed.

Lemma order_by_rev (l : list (Transaction F)) :
  StronglySorted (fun t u => timestamp t < timestamp u) l ->
  crud.order_by_timestamp_desc l = rev l.
Proof.
  induction 1 as [| t l _ IH Ht]; simpl; [reflexivity|].
  rewrite IH. apply insert_desc_oldest.
  rewrite Forall_forall in *. intros u Hu. apply Ht, in_rev, Hu.
Qed.

Lemma StronglySorted_filter {A : Type} (R : A -> A -> Prop) (f : A -> bool)
  (l : list A) :
  StronglySorted R l -> StronglySorted R (filter f l).
Proof.
  induction 1 as [| x l _ IH Hx]; simpl; [constructor|].
  destruct (f x); [| exact IH]. constructor; [exact IH|].
  rewrite Forall_forall in *. intros y Hy. apply filter_In in Hy.
  apply Hx, Hy.
Qed.

Lemma StronglySorted_snoc {A : Type} (R : A -> A -> Prop) (l : list A) (x : A) :
  StronglySorted R l -> Forall (fun y => R y x) l ->
  StronglySorted R (l ++ [x]).
Proof.
  induction 1 as [| y l _ IH Hy]; intros Hx; simpl.
  - repeat constructor.
  - inversion_clear Hx as [| ? ? Hyx Hl]. constructor; [apply IH, Hl|].
    apply Forall_app. split; [exact Hy | repeat constructor; exact Hyx].
Qed.

(** The rows of the ledger carry the readings of the clock, in order. *)
Lemma stamped_snoc (clock : nat -> datetime) (r : nat)
  (l : list (Transaction F)) (t : Transaction F) (r' : nat) :
  advancing clock ->
  StronglySorted (fun t u => timestamp t < timestamp u) l
  /\ Forall (fun t => exists k, (k < r)%nat /\ timestamp t = clock k) l ->
  (r <= r')%nat -> timestamp t = clock r' ->
  StronglySorted (fun t u => timestamp t < timestamp u) (l ++ [t])
  /\ Forall (fun t => exists k, (k < S r')%nat /\ timestamp t = clock k)
            (l ++ [t]).
Proof.
  intros Hadv [Hs Hk] Hr Ht. split.
  - apply StronglySorted_snoc; [exact Hs|].
    eapply Forall_impl; [| exact Hk].
    intros u [k [Hlt ->]]. rewrite Ht. apply Hadv. lia.
  - apply Forall_app. split.
    + eapply Forall_impl; [| exact Hk].
      intros u [k [Hlt Hu]]. exists k. split; [lia | exact Hu].
    + constructor; [| constructor]. exists r'. split; [lia | exact Ht].
Qed.

Lemma stamped_later (clock : nat -> datetime) (r r' : nat)
  (l : list (Transaction F)) :
  (r <= r')%nat ->
  Forall (fun t => exists k, (k < r)%nat /\ timestamp t = clock k) l ->
  Forall (fun t => exists k, (k < r')%nat /\ timestamp t = clock k) l.
Proof.
  intros Hr. apply Forall_impl. intros u [k [Hlt Hu]].
  exists k. split; [lia | exact Hu].
Qed.

Lemma effect_stamped (clock : nat -> datetime) (db db' : Session F) :
  advancing clock ->
  utcnow db = clock
  /\ StronglySorted (fun t u => timestamp t < timestamp u) (transactions db)
  /\ Forall (fun t => exists k, (k < readings db)%nat
                                /\ timestamp t = clock k)
            (transactions db) ->
  effect db db' ->
  utcnow db' = clock
  /\ StronglySorted (fun t u => timestamp t < timestamp u) (transactions db')
  /\ Forall (fun t => exists k, (k < readings db')%nat
                                /\ timestamp t = clock k)
            (transactions db').
Proof.
  intros Hadv [Hc [Hs Hk]] He.
  destruct He as [| name b _ _ _ _ | account amt _ | account amt _ Hb].
  - repeat split; assumption.
  - unfold crud.create_account. destruct (flt fzero b); simpl.
    + split; [exact Hc|].
      apply (stamped_snoc clock (readings db)); auto.
      simpl. rewrite Hc. reflexivity.
    + split; [exact Hc|]. split; [exact Hs|].
      apply (stamped_later clock (readings db)); [lia | exact Hk].
  - unfold crud.deposit. simpl. split; [exact Hc|].
    apply (stamped_snoc clock (readings db)); auto.
    simpl. rewrite Hc. reflexivity.
  - unfold crud.withdraw. rewrite Hb. simpl. split; [exact Hc|].
    apply (stamped_snoc clock (readings db)); auto.
    simpl. rewrite Hc. reflexivity.
Qed.

(** X19.  When each reading of the clock is later than the one before, the
    history of an account in a session reached from the empty store is its
    rows in the reverse of the order in which they were recorded: the page
    for a limit and an offset that are not negative is the rows
    [offset, offset + limit) of the account's ledger read backwards. *)
Theorem history_is_the_ledger_backwards :
  forall (clock : nat -> datetime) (rs : list (Request F))
         (i limit offset : Z),
    advancing clock -> 0 <= limit -> 0 <= offset ->
    crud.get_transactions_by_account (run (empty clock) rs) i limit offset
    = firstn (Z.to_nat limit)
        (skipn (Z.to_nat offset)
           (rev (crud.by_account i (transactions (run (empty clock) rs))))).
Proof.
  intros clock rs i limit offset Hadv Hl Ho.
  assert (H : utcnow (run (empty clock) rs) = clock
              /\ StronglySorted (fun t u => timestamp t < timestamp u)
                   (transactions (run (empty clock) rs))
              /\ Forall (fun t => exists k,
                             (k < readings (run (empty clock) rs))%nat
                             /\ timestamp t = clock k)
                        (transactions (run (empty clock) rs))).
  { apply (run_preserves
             (fun db =>
                utcnow db = clock
                /\ StronglySorted (fun t u => timestamp t < timestamp u)
                     (transactions db)
                /\ Forall (fun t => exists k, (k < readings db)%nat
                                              /\ timestamp t = clock k)
                          (transactions db))).
    - intros db db'. apply effect_stamped, Hadv.
    - repeat split; constructor. }
  destruct H as [_ [Hs _]].
  unfold crud.get_transactions_by_account, crud.sql_limit, crud.sql_offset.
  destruct (limit <? 0) eqn:E; [apply Z.ltb_lt in E; lia|].
  rewrite order_by_rev; [reflexivity|].
  apply StronglySorted_filter, Hs.
Qed.

End History.

Lemma ticking_advancing : advancing ticking.
Proof.
  intros i j Hij. unfold ticking. lia.
Qed.

(** ** A deposit taken back *)

Section RoundTrip.
Context {F : Type} {num : Number F}.
Context {exact : ExactArith F} {ordered : OrderedArith F}.

Lemma deposit_covers_withdrawal (b amt : F) :
  flt b fzero = false -> flt (fadd b amt) amt = false.
Proof.
  intros Hb. destruct (flt (fadd b amt) amt) eqn:E; [| reflexivity].
  pose proof (flt_fadd_mono _ _ (fsub fzero amt) E) as Hm.
  rewrite <- fadd_assoc, (fadd_comm amt (fsub fzero amt)), fsub_fadd in Hm.
  rewrite (fadd_comm b fzero), fadd_zero_l in Hm. congruence.
Qed.

(** X20.  In exact, ordered arithmetic, over HTTP: after a deposit of a
    positive amount into an account whose balance [b] is not negative, a
    withdrawal of the same amount is never refused, answers with [b], and
    the balance reads [b] again. *)
Theorem deposit_can_be_withdrawn_again :
  forall (db : Session F) (i : Z) (n : str) (b amt : F),
    main.get_balance db i = (db, main.HTTP_200_Balance i n b) ->
    flt fzero amt = true ->
    flt b fzero = false ->
    exists db1 db2,
      main.deposit db i amt
      = (db1, main.HTTP_200_Message "Deposit successful" i (fadd b amt))
      /\ main.withdraw db1 i amt
         = (db2, main.HTTP_200_Message "Withdrawal successful" i b)
      /\ main.get_balance db2 i = (db2, main.HTTP_200_Balance i n b).
Proof.
  intros db i n b amt Hread Hamt Hb.
  destruct (get_balance_ok _ _ _ _ _ _ Hread)
    as [account [Ha [Hid [_ [-> ->]]]]].
  set (account1 := crud.set_balance account (fadd (balance account) amt)).
  set (db1 := fst (crud.deposit db account amt)).
  assert (Ha1 : crud.get_account_by_id db1 i = Some account1).
  { unfold db1. rewrite deposit_rows, Hid, Z.eqb_refl, Ha. reflexivity. }
  assert (Hguard : flt (balance account1) amt = false)
    by (apply deposit_covers_withdrawal, Hb).
  assert (Hback : fsub (balance account1) amt = balance account)
    by (apply fadd_fsub).
  exists db1, (fst (crud.withdraw db1 account1 amt)). split; [| split].
  - apply http_deposit_ok; assumption.
  - rewrite <- Hback. apply http_withdraw_ok; assumption.
  - unfold main.get_balance.
    rewrite withdraw_rows by exact Hguard.
    change (id account1) with (id account).
    rewrite Hid, Z.eqb_refl, Ha1. simpl. rewrite Hid, fadd_fsub.
    reflexivity.
Qed.

End RoundTrip.

(** * The further properties at work *)

(** X6 at work: a [deposit] call without [amount]. *)
Lemma call_without_required_argument_is_refused_witness :
  In deposit_tool list_tools
  /\ In "amount"%string (mcp_types.tool_required deposit_tool)
  /\ has_key (page_args (F := Z) 1 None) "amount" = false
  /\ exists text,
       mcp_server.call_tool alice_exact "deposit" (page_args 1 None)
       = (alice_exact, mcp_server.Error text).
Proof.
  assert (Ht : In deposit_tool list_tools) by (right; left; reflexivity).
  assert (Hk : In "amount"%string (mcp_types.tool_required deposit_tool))
    by (right; left; reflexivity).
  assert (Hm : has_key (page_args (F := Z) 1 None) "amount" = false)
    by reflexivity.
  split; [exact Ht|]. split; [exact Hk|]. split; [exact Hm|].
  exact (call_without_required_argument_is_refused
           alice_exact deposit_tool "amount" (page_args 1 None) Ht Hk Hm).
Defined.

(** X10 at work: no account has id 7 in Alice's session. *)
Lemma unknown_account_is_not_found_witness :
  ~ In 7 (map id (accounts alice_exact))
  /\ main.get_balance alice_exact 7
     = (alice_exact, main.HTTP_404_NOT_FOUND "Account not found").
Proof.
  assert (H : ~ In 7 (map id (accounts alice_exact))).
  { simpl. intros [H | []]. discriminate H. }
  split; [exact H|].
  exact (proj1 (unknown_account_is_not_found alice_exact 7 H)).
Defined.

(** X14 at work: Alice's opening deposit of 100. *)
Lemma persisted_amounts_are_positive_witness :
  In alice_first_row (transactions alice_exact)
  /\ flt fzero (amount alice_first_row) = true.
Proof.
  assert (H : In alice_first_row (transactions alice_exact))
    by (left; reflexivity).
  split; [exact H|].
  exact (persisted_amounts_are_positive (order := Z_order)
           ticking (alice_requests 100 50 200 150) alice_first_row H).
Defined.

(** X15 at work: Bob's balance of 20. *)
Lemma balances_are_never_negative_witness :
  In bob_account (accounts bob_exact)
  /\ flt (balance bob_account) fzero = false.
Proof.
  assert (H : In bob_account (accounts bob_exact)) by (left; reflexivity).
  split; [exact H|].
  exact (balances_are_never_negative
           (order := Z_order) (exact := Z_exact) (ordered := Z_ordered)
           ticking bob_requests bob_account H).
Defined.

(** X16 at work: Alice, whose balance reads 100, deposits 50. *)
Lemma balance_reads_what_was_written_witness :
  main.get_balance alice_opened 1
  = (alice_opened, main.HTTP_200_Balance 1 (lit "Alice") 100%float)
  /\ flt fzero 50%float = true
  /\ exists db1,
       main.deposit alice_opened 1 50%float
       = (db1, main.HTTP_200_Message "Deposit successful" 1
                 (fadd 100%float 50%float))
       /\ main.get_balance db1 1
          = (db1, main.HTTP_200_Balance 1 (lit "Alice")
                    (fadd 100%float 50%float)).
Proof.
  assert (Hr : main.get_balance alice_opened 1
               = (alice_opened,
                  main.HTTP_200_Balance 1 (lit "Alice") 100%float))
    by reflexivity.
  assert (Ha : flt fzero 50%float = true) by reflexivity.
  split; [exact Hr|]. split; [exact Ha|].
  destruct (balance_reads_what_was_written
              alice_opened 1 (lit "Alice") 100%float 50%float Hr Ha)
    as [[db1 [Hd [Hb _]]] _].
  exists db1. split; assumption.
Defined.

(** X17 at work: Alice's account, just created, reads 100. *)
Lemma created_account_reads_back_witness :
  main.create_account (empty ticking) (lit " Alice ") (Some 100%float)
  = (alice_opened, main.HTTP_201_CREATED alice_account)
  /\ main.get_balance alice_opened 1
     = (alice_opened, main.HTTP_200_Balance 1 (lit "Alice") 100%float).
Proof.
  assert (H : main.create_account (empty ticking) (lit " Alice ")
                (Some 100%float)
              = (alice_opened, main.HTTP_201_CREATED alice_account))
    by reflexivity.
  split; [exact H|].
  exact (proj1 (proj2 (created_account_reads_back
                         (empty ticking) alice_opened (lit " Alice ")
                         (Some 100%float) alice_account H))).
Defined.

(** X19 at work: Alice's history, latest first. *)
Lemma history_is_the_ledger_backwards_witness :
  advancing ticking /\ 0 <= 10 /\ 0 <= 0
  /\ map tx_id (crud.get_transactions_by_account alice_exact 1 10 0)
     = [3; 2; 1].
Proof.
  assert (H10 : 0 <= 10) by lia. assert (H0 : 0 <= 0) by lia.
  split; [exact ticking_advancing|]. split; [exact H10|].
  split; [exact H0|].
  unfold alice_exact.
  rewrite (history_is_the_ledger_backwards
             ticking (alice_requests 100 50 200 150) 1 10 0
             ticking_advancing H10 H0).
  reflexivity.
Defined.

(** X20 at work: Alice, at 0, deposits 5 and takes them back. *)
Lemma deposit_can_be_withdrawn_again_witness :
  main.get_balance alice_exact 1
  = (alice_exact, main.HTTP_200_Balance 1 (lit "Alice") 0)
  /\ flt fzero 5 = true /\ flt 0 fzero = false
  /\ exists db1 db2,
       main.deposit alice_exact 1 5
       = (db1, main.HTTP_200_Message "Deposit successful" 1 (fadd 0 5))
       /\ main.withdraw db1 1 5
          = (db2, main.HTTP_200_Message "Withdrawal successful" 1 0)
       /\ main.get_balance db2 1
          = (db2, main.HTTP_200_Balance 1 (lit "Alice") 0).
Proof.
  assert (Hr : main.get_balance alice_exact 1
               = (alice_exact, main.HTTP_200_Balance 1 (lit "Alice") 0))
    by reflexivity.
  assert (Ha : flt fzero 5 = true) by reflexivity.
  assert (Hb : flt 0 fzero = false) by reflexivity.
  split; [exact Hr|]. split; [exact Ha|]. split; [exact Hb|].
  exact (deposit_can_be_withdrawn_again
           (exact := Z_exact) (ordered := Z_ordered)
           alice_exact 1 (lit "Alice") 0 5 Hr Ha Hb).
Defined.

(** X2 at work: the text [a < b], given as a literal and code point by
    code point. *)
Lemma sanitize_input_is_injective_witness :
  sanitize_input (Some (lit "a < b"))
  = sanitize_input (Some [97; 32; 60; 32; 98]%N)
  /\ lit "a < b" = [97; 32; 60; 32; 98]%N.
Proof.
  assert (H : sanitize_input (Some (lit "a < b"))
              = sanitize_input (Some [97; 32; 60; 32; 98]%N))
    by reflexivity.
  split; [exact H|].
  exact (sanitize_input_is_injective (lit "a < b") [97; 32; 60; 32; 98]%N H).
Defined.

(** X9 at work: Alice, with 100, asks for 200 and then for 100. *)
Lemma front_ends_check_funds_before_the_core_witness :
  crud.get_account_by_id alice_opened 1 = Some alice_account
  /\ main.withdraw alice_opened 1 200%float
     = (alice_opened, main.HTTP_400_BAD_REQUEST "Insufficient funds")
  /\ exists db' account',
       crud.withdraw alice_opened alice_account 100%float
       = (db', Some account')
       /\ mcp_server.call_tool alice_opened "withdraw"
            (amount_args 1 100%float)
          = (db', mcp_server.Message "Withdrawal successful"
                    (id account') (balance account')).
Proof.
  assert (H : crud.get_account_by_id alice_opened 1 = Some alice_account)
    by reflexivity.
  split; [exact H|].
  split.
  - exact (proj1 (front_ends_check_funds_before_the_core
                    alice_opened 1 200%float alice_account H) eq_refl).
  - exact (proj2 (front_ends_check_funds_before_the_core
                    alice_opened 1 100%float alice_account H) eq_refl).
Defined.
